(** * mockapi_forge: template-driven data generator and path-based mock resolver

    A shallow embedding of [lib/dataGenerator.ts] ([getFakerFunction],
    [processValue], [generateMockData]) and of the public mock route
    ([findMatchingMock], [handleRequest]), with the properties the
    specification states about them. *)

From Stdlib Require Import String Ascii List NArith ZArith QArith Bool Lia.
Import ListNotations.

Set Implicit Arguments.

(** ** JavaScript strings

    A JavaScript string is a sequence of UTF-16 code units.  The regular
    expression of the template grammar and [String.prototype.trim] both
    distinguish code units above the ASCII range (U+2028, U+2029, U+00A0,
    ...), so strings are kept as lists of code units. *)

Definition jsstring := list N.

(** Code units of an ASCII literal. *)
Definition js (s : string) : jsstring :=
  map N_of_ascii (list_ascii_of_string s).

Fixpoint str_eqb (a b : jsstring) : bool :=
  match a, b with
  | [], [] => true
  | x :: a', y :: b' => N.eqb x y && str_eqb a' b'
  | _, _ => false
  end.

(** [s.startsWith(p)] *)
Fixpoint startsWith (p s : jsstring) : bool :=
  match p, s with
  | [], _ => true
  | x :: p', y :: s' => N.eqb x y && startsWith p' s'
  | _ :: _, [] => false
  end.

(** [s.endsWith(p)] *)
Definition endsWith (p s : jsstring) : bool :=
  (length p <=? length s)%nat && str_eqb (skipn (length s - length p) s) p.

(** [s.slice(0, -1)] *)
Definition slice_0_m1 (s : jsstring) : jsstring := removelast s.

(** [s.split(d)] for a one-character separator [d]: never the empty array. *)
Fixpoint split (d : N) (s : jsstring) : list jsstring :=
  match s with
  | [] => [[]]
  | c :: r =>
      if N.eqb c d then [] :: split d r
      else match split d r with
           | seg :: segs => (c :: seg) :: segs
           | [] => [[c]]
           end
  end.

(** [parts.join(sep)] *)
Fixpoint join (sep : jsstring) (parts : list jsstring) : jsstring :=
  match parts with
  | [] => []
  | [p] => p
  | p :: rest => p ++ sep ++ join sep rest
  end.

(** White space and line terminators, the code units [trim] removes. *)
Definition is_line_terminator (c : N) : bool :=
  ((c =? 10) || (c =? 13) || (c =? 8232) || (c =? 8233))%N.

Definition is_white_space (c : N) : bool :=
  ((c =? 9) || (c =? 11) || (c =? 12) || (c =? 32) || (c =? 160)
   || (c =? 5760) || ((8192 <=? c) && (c <=? 8202)) || (c =? 8239)
   || (c =? 8287) || (c =? 12288) || (c =? 65279))%N.

Definition is_trimmed (c : N) : bool := is_white_space c || is_line_terminator c.

Fixpoint trimStart (s : jsstring) : jsstring :=
  match s with
  | c :: r => if is_trimmed c then trimStart r else s
  | [] => []
  end.

(** [s.trim()] *)
Definition trim (s : jsstring) : jsstring :=
  rev (trimStart (rev (trimStart s))).

(** ** The template grammar  [^ {{ ([\w.]+) (?: \( ( .* ) \) )? }} $]

    The pattern has no flags: [\w] is [[A-Za-z0-9_]], [.] is any code unit
    but a line terminator, [^] and [$] anchor at the two ends of the input. *)

Definition is_word_char (c : N) : bool :=
  (((48 <=? c) && (c <=? 57)) || ((65 <=? c) && (c <=? 90)) || (c =? 95)
   || ((97 <=? c) && (c <=? 122)))%N.

(** the class [[\w.]] *)
Definition is_path_char (c : N) : bool := is_word_char c || (c =? 46)%N.

(** the atom [.] *)
Definition is_dot_char (c : N) : bool := negb (is_line_terminator c).

Inductive regex : Type :=
| Chr (c : N)
| Class (p : N -> bool)
| Cat (r1 r2 : regex)
| Opt (r : regex)
| Star (r : regex).


(** [matches r s]: the whole of [s] is a word of [r]. *)
Inductive matches : regex -> jsstring -> Prop :=
| MChr c : matches (Chr c) [c]
| MClass (p : N -> bool) c : p c = true -> matches (Class p) [c]
| MCat r1 r2 s1 s2 :
    matches r1 s1 -> matches r2 s2 -> matches (Cat r1 r2) (s1 ++ s2)
| MOptSkip r : matches (Opt r) []
| MOptTake r s : matches r s -> matches (Opt r) s
| MStarNil r : matches (Star r) []
| MStarCons r s1 s2 :
    matches r s1 -> matches (Star r) s2 -> matches (Star r) (s1 ++ s2).

Definition LBRACE : N := 123.
Definition RBRACE : N := 125.
Definition LPAREN : N := 40.
Definition RPAREN : N := 41.
Definition DOT : N := 46.
Definition SLASH : N := 47.
Definition COLON : N := 58.


(** The decomposition a successful match yields: [path] is capture group 1,
    [args] capture group 2 ([None] when the optional group did not
    participate, the JavaScript [undefined]). *)
Definition is_template (s path : jsstring) (args : option jsstring) : Prop :=
  path <> [] /\ forallb is_path_char path = true /\
  match args with
  | None => s = [LBRACE; LBRACE] ++ path ++ [RBRACE; RBRACE]
  | Some a =>
      forallb is_dot_char a = true /\
      s = [LBRACE; LBRACE] ++ path ++ [LPAREN] ++ a ++ [RPAREN; RBRACE; RBRACE]
  end.

(** Longest prefix of code units satisfying [p], and the rest. *)
Fixpoint span (p : N -> bool) (s : jsstring) : jsstring * jsstring :=
  match s with
  | c :: r => if p c then let (a, b) := span p r in (c :: a, b) else ([], s)
  | [] => ([], [])
  end.

(** [value.match(re)] for the regular expression above: [None] is the JavaScript
    [null]; on success the pair is ([match[1]], [match[2]]).  The class
    [[\w.]+] is greedy and what follows it starts with a brace or a
    parenthesis, so group 1 is the longest run of path characters; the
    optional group must end the string with [")}}"], so group 2 is
    everything in between. *)
Definition template_match (s : jsstring) : option (jsstring * option jsstring) :=
  if startsWith [LBRACE; LBRACE] s then
    let (path, rest) := span is_path_char (skipn 2 s) in
    match path with
    | [] => None
    | _ :: _ =>
        if str_eqb rest [RBRACE; RBRACE] then Some (path, None)
        else if startsWith [LPAREN] rest
                && endsWith [RPAREN; RBRACE; RBRACE] (skipn 1 rest) then
          let a := firstn (length rest - 4) (skipn 1 rest) in
          if forallb is_dot_char a then Some (path, Some a) else None
        else None
    end
  else None.

(** ** JSON values

    [type JsonValue = string | number | boolean | null | JsonObject | JsonArray].
    A number is kept as the rational it denotes.  An object is the list of
    its own enumerable properties in enumeration order; the keys of one
    object are pairwise distinct. *)

Unset Elimination Schemes.

Inductive JsonValue : Type :=
| JNull
| JBool (b : bool)
| JNumber (q : Q)
| JString (s : jsstring)
| JArray (items : list JsonValue)
| JObject (props : list (jsstring * JsonValue)).

Set Elimination Schemes.

(** [JSON.parse(JSON.stringify(structure))]: a fresh value with the same
    content, built node by node. *)
Fixpoint deepCopy (v : JsonValue) : JsonValue :=
  match v with
  | JArray items => JArray (map deepCopy items)
  | JObject props => JObject (map (fun kv => (fst kv, deepCopy (snd kv))) props)
  | _ => v
  end.

Fixpoint assoc (A : Type) (k : jsstring) (l : list (jsstring * A)) : option A :=
  match l with
  | [] => None
  | (k', a) :: r => if str_eqb k k' then Some a else assoc k r
  end.

Definition keys (A : Type) (l : list (jsstring * A)) : list jsstring := map fst l.

Definition has_key (A : Type) (k : jsstring) (l : list (jsstring * A)) : bool :=
  existsb (str_eqb k) (keys l).

Fixpoint replace_prop (k : jsstring) (v : JsonValue)
    (o : list (jsstring * JsonValue)) : list (jsstring * JsonValue) :=
  match o with
  | [] => []
  | (k', v') :: r =>
      if str_eqb k k' then (k', v) :: r else (k', v') :: replace_prop k v r
  end.

Definition PROTO : jsstring := js "__proto__".

(** [newObj[key] = v] on an object created by the literal [{}].  An existing
    own property is overwritten in place and a new one is added last (the
    keys arrive in the enumeration order of the source object, in which
    each new key comes after the ones before it).  The key [__proto__] is
    the accessor inherited from [Object.prototype]: the assignment runs its
    setter and creates no own property. *)
Definition obj_set (o : list (jsstring * JsonValue)) (k : jsstring)
    (v : JsonValue) : list (jsstring * JsonValue) :=
  if str_eqb k PROTO then o
  else if has_key k o then replace_prop k v o
  else o ++ [(k, v)].

(** The two error markers of [processValue]. *)
Definition unknown_path_marker (fakerPath : jsstring) : jsstring :=
  js "Error: Unknown Faker Path (" ++ fakerPath ++ js ")".

Definition faker_error_marker (fakerPath : jsstring) : jsstring :=
  js "Error: Faker (" ++ fakerPath ++ js ")".

(** A string is an infix of another. *)
Definition contains (inner outer : jsstring) : Prop :=
  exists pre post, outer = pre ++ inner ++ post.

(** The argument text is absent or blank: the call is made with no argument. *)
Definition no_argument (args : option jsstring) : Prop :=
  match args with
  | None => True
  | Some a => trim a = []
  end.

(** The two loops of [processValue], over a function [walk] that expands one
    value in a world and returns the world it leaves. *)
Section Loops.

Variable World : Type.
Variable walk : JsonValue -> World -> JsonValue * World.

(** [value.map(item => processValue(item))] *)
Fixpoint process_items (l : list JsonValue) (w : World)
    : list JsonValue * World :=
  match l with
  | [] => ([], w)
  | item :: r =>
      let (item', w1) := walk item w in
      let (r', w2) := process_items r w1 in
      (item' :: r', w2)
  end.

(** [for (const key in value) newObj[key] = processValue(value[key])] *)
Fixpoint process_props (l : list (jsstring * JsonValue))
    (newObj : list (jsstring * JsonValue)) (w : World)
    : list (jsstring * JsonValue) * World :=
  match l with
  | [] => (newObj, w)
  | (key, v) :: r =>
      let (v', w1) := walk v w in
      process_props r (obj_set newObj key v') w1
  end.

End Loops.

(** What a call of a generator function does: it returns a value or throws.
    The value is one of the type [JsonValue], which is the type the source
    gives to the result of [processValue]; a result that cannot be written
    as JSON shows where the data is serialised, in [handleRequest]. *)
Inductive Completion : Type :=
| Returns (v : JsonValue)
| Throws.

Section DataGenerator.

(** The state the generators read and advance (the random source). *)
Variable World : Type.

(** A generator called with no argument ([None]) or with one. *)
Definition FakerFunction : Type :=
  option JsonValue -> World -> Completion * World.

Unset Elimination Schemes.

(** The object graph under the imported [faker]: a function, an object
    with the members the [in] operator finds, or any other value.  Reading
    a member has no effect. *)
Inductive FakerNode : Type :=
| FFunction (f : FakerFunction)
| FObject (members : list (jsstring * FakerNode))
| FOther.

Set Elimination Schemes.

Variable faker : FakerNode.

(** [JSON.parse]: [None] when it throws a [SyntaxError]. *)
Variable JSON_parse : jsstring -> option JsonValue.

(** The loop of [getFakerFunction] over [parts[1..]]. *)
Fixpoint descend (obj : FakerNode) (parts : list jsstring) : option FakerNode :=
  match parts with
  | [] => Some obj
  | part :: rest =>
      match obj with
      | FObject members =>
          match assoc part members with
          | Some o => descend o rest
          | None => None
          end
      | _ => None
      end
  end.

Definition getFakerFunction (path : jsstring) : option FakerFunction :=
  match split DOT path with
  | [] => None
  | first :: rest =>
      if negb (str_eqb first (js "faker")) then None
      else match descend faker rest with
           | Some (FFunction f) => Some f
           | _ => None
           end
  end.

(** [return fakerFunc(...)] inside the [try]: a throw is caught and the
    leaf becomes the error marker. *)
Definition invoke (fakerFunc : FakerFunction) (arg : option JsonValue)
    (fakerPath : jsstring) (w : World) : JsonValue * World :=
  match fakerFunc arg w with
  | (Returns v, w') => (v, w')
  | (Throws, w') => (JString (faker_error_marker fakerPath), w')
  end.

(** The body of [if (match) { ... }] in [processValue]. *)
Definition expandTemplate (fakerPath : jsstring)
    (argsStringWithParens : option jsstring) (w : World) : JsonValue * World :=
  match getFakerFunction fakerPath with
  | Some fakerFunc =>
      match argsStringWithParens with
      | Some a =>
          if negb (str_eqb (trim a) []) then
            match JSON_parse a with
            | Some args => invoke fakerFunc (Some args) fakerPath w
            | None => (JString (faker_error_marker fakerPath), w)
            end
          else invoke fakerFunc None fakerPath w
      | None => invoke fakerFunc None fakerPath w
      end
  | None => (JString (unknown_path_marker fakerPath), w)
  end.

Fixpoint processValue (value : JsonValue) (w : World) : JsonValue * World :=
  match value with
  | JString s =>
      match template_match s with
      | Some (fakerPath, args) => expandTemplate fakerPath args w
      | None => (value, w)
      end
  | JArray items =>
      let (items', w') := process_items processValue items w in
      (JArray items', w')
  | JObject props =>
      let (newObj, w') := process_props processValue props [] w in
      (JObject newObj, w')
  | _ => (value, w)
  end.

(** The marker of a leaf whose failure does not depend on the world: the
    path is unknown, or the argument text is not JSON. *)
Definition static_failure (s : jsstring) : option jsstring :=
  match template_match s with
  | Some (fakerPath, args) =>
      match getFakerFunction fakerPath, args with
      | None, _ => Some (unknown_path_marker fakerPath)
      | Some _, Some a =>
          if negb (str_eqb (trim a) []) then
            match JSON_parse a with
            | None => Some (faker_error_marker fakerPath)
            | Some _ => None
            end
          else None
      | Some _, None => None
      end
  | None => None
  end.

(** The template with every such leaf replaced by its marker, written as a
    plain string. *)
Fixpoint with_markers (v : JsonValue) : JsonValue :=
  match v with
  | JString s =>
      match static_failure s with
      | Some marker => JString marker
      | None => v
      end
  | JArray items => JArray (map with_markers items)
  | JObject props => JObject (map (fun kv => (fst kv, with_markers (snd kv))) props)
  | _ => v
  end.

(** The ways one template leaf fails in a world: the marker it leaves and
    the world after it. *)
Inductive LeafFailure (fakerPath : jsstring) (args : option jsstring)
    (w : World) : jsstring -> World -> Prop :=
| UnknownPath :
    getFakerFunction fakerPath = None ->
    LeafFailure fakerPath args w (unknown_path_marker fakerPath) w
| ArgumentsDoNotParse fakerFunc a :
    getFakerFunction fakerPath = Some fakerFunc ->
    args = Some a -> trim a <> [] -> JSON_parse a = None ->
    LeafFailure fakerPath args w (faker_error_marker fakerPath) w
| ThrowsWithArgument fakerFunc a v w' :
    getFakerFunction fakerPath = Some fakerFunc ->
    args = Some a -> trim a <> [] -> JSON_parse a = Some v ->
    fakerFunc (Some v) w = (Throws, w') ->
    LeafFailure fakerPath args w (faker_error_marker fakerPath) w'
| ThrowsWithoutArgument fakerFunc w' :
    getFakerFunction fakerPath = Some fakerFunc ->
    no_argument args ->
    fakerFunc None w = (Throws, w') ->
    LeafFailure fakerPath args w (faker_error_marker fakerPath) w'.

(** The [for] loop of [generateMockData], [n] iterations left. *)
Fixpoint generate_items (n : nat) (structure : JsonValue) (w : World)
    : list JsonValue * World :=
  match n with
  | O => ([], w)
  | S k =>
      let (item, w1) := processValue (deepCopy structure) w in
      let (results, w2) := generate_items k structure w1 in
      (item :: results, w2)
  end.

(** [arrayCount] is an integer column; the loop runs while
    [i < Math.max(1, arrayCount)]. *)
Definition generateMockData (structure : JsonValue) (isArray : bool)
    (arrayCount : Z) (w : World) : JsonValue * World :=
  if isArray then
    let (results, w') :=
      generate_items (Z.to_nat (Z.max 1 arrayCount)) structure w in
    (JArray results, w')
  else processValue (deepCopy structure) w.

(** The world before the [i]-th walk of the loop. *)
Fixpoint world_after (i : nat) (structure : JsonValue) (w : World) : World :=
  match i with
  | O => w
  | S k => world_after k structure (snd (processValue (deepCopy structure) w))
  end.

End DataGenerator.

(** Some string leaf of the value is a generator-call template. *)
Fixpoint has_template (v : JsonValue) : bool :=
  match v with
  | JString s => match template_match s with Some _ => true | None => false end
  | JArray items => existsb has_template items
  | JObject props => existsb (fun kv => has_template (snd kv)) props
  | _ => false
  end.

Fixpoint distinct (l : list jsstring) : bool :=
  match l with
  | [] => true
  | k :: r => negb (existsb (str_eqb k) r) && distinct r
  end.

(** In every object of the value the keys are pairwise distinct and none
    of them is [__proto__]. *)
Fixpoint ordinary_keys (v : JsonValue) : bool :=
  match v with
  | JArray items => forallb ordinary_keys items
  | JObject props =>
      distinct (keys props) && negb (has_key PROTO props)
      && forallb (fun kv => ordinary_keys (snd kv)) props
  | _ => true
  end.

(** ** The public mock route *)

(** The row type [DbMockEndpoint], with the joined [projects ( base_path )]:
    [projects] is [None] for a mock outside any project, and the base path
    of a project may be [null]. *)
Record DbMockEndpoint : Type := {
  id : jsstring;
  user_id : jsstring;
  path_template : jsstring;
  http_method : jsstring;
  response_structure : JsonValue;
  is_array : bool;
  array_count : Z;
  status_code : Z;
  projects : option (option jsstring)
}.

(** [mock.projects?.base_path], kept only when truthy (a non-empty string). *)
Definition projectBasePath (mock : DbMockEndpoint) : option jsstring :=
  match projects mock with
  | Some (Some b) => match b with [] => None | _ :: _ => Some b end
  | _ => None
  end.

(** [p.startsWith('/') ? p : `/${p}`] *)
Definition ensureLeadingSlash (p : jsstring) : jsstring :=
  if startsWith [SLASH] p then p else SLASH :: p.

(** [p.length > 1 && p.endsWith('/') ? p.slice(0, -1) : p] *)
Definition stripTrailingSlash (p : jsstring) : jsstring :=
  if (1 <? length p)%nat && endsWith [SLASH] p then slice_0_m1 p else p.

(** The computation of [fullPathTemplate] in the loop of [findMatchingMock],
    from the (truthy or absent) project base path and the path template. *)
Definition compose (base : option jsstring) (path_template : jsstring) : jsstring :=
  match base with
  | Some projectBasePath =>
      let normProjPath := ensureLeadingSlash projectBasePath in
      let cleanProjPath := stripTrailingSlash normProjPath in
      let normMockPath := ensureLeadingSlash path_template in
      let cleanMockPath := stripTrailingSlash normMockPath in
      if str_eqb cleanMockPath [SLASH] then cleanProjPath
      else cleanProjPath ++ cleanMockPath
  | None =>
      let normMockPath := ensureLeadingSlash path_template in
      stripTrailingSlash normMockPath
  end.

Definition fullPathTemplate (mock : DbMockEndpoint) : jsstring :=
  compose (projectBasePath mock) (path_template mock).

(** [normalizedReqPath], from the slug parts of the request. *)
Definition normalizedReqPath (requestedSlugParts : list jsstring) : jsstring :=
  let requestedPath := SLASH :: join [SLASH] requestedSlugParts in
  let normalized := stripTrailingSlash requestedPath in
  match normalized with
  | [] => [SLASH]
  | _ :: _ => normalized
  end.

(** The slashes the text starts with, taken off. *)
Fixpoint dropLeadingSlashes (p : jsstring) : jsstring :=
  match p with
  | c :: r => if N.eqb c SLASH then dropLeadingSlashes r else p
  | [] => []
  end.

(** The normalization in the words of the specification: a single leading
    slash, whatever number of slashes the input starts with; then a trailing
    slash is stripped unless the value is exactly the root. *)
Definition spec_normalize (p : jsstring) : jsstring :=
  let q := SLASH :: dropLeadingSlashes p in
  if str_eqb q [SLASH] then q
  else if endsWith [SLASH] q then removelast q else q.

(** What [match(fullPathTemplate, { decode })] applied to the request path
    gives: [false], an object holding the captured parameters, or a thrown
    error (a pattern the library rejects, a segment that does not decode). *)
Inductive MatchResult : Type :=
| NoMatch
| Matched (params : list (jsstring * jsstring))
| MatchThrows (message : jsstring).

(** A computation that may throw an error with a message. *)
Inductive Exc (A : Type) : Type :=
| Ok (a : A)
| Raise (message : jsstring).

Arguments Ok {A} a.
Arguments Raise {A} message.

(** The [{ data, error }] pair a store query resolves to. *)
Record QueryResult (A : Type) : Type := {
  data : option A;
  error : option jsstring
}.

(** A response: the value that [JSON.stringify] writes into the body, the
    status, the headers. *)
Record Response : Type := {
  body : JsonValue;
  status : Z;
  headers : list (jsstring * jsstring)
}.

(** [headers.set(name, value)] *)
Fixpoint headers_set (h : list (jsstring * jsstring)) (name value : jsstring)
    : list (jsstring * jsstring) :=
  match h with
  | [] => [(name, value)]
  | (n, v) :: r =>
      if str_eqb n name then (n, value) :: r else (n, v) :: headers_set r name value
  end.

Definition getCorsHeaders (origin : option jsstring) : list (jsstring * jsstring) :=
  let allowed := match origin with
                 | Some (c :: o) => c :: o
                 | _ => js "*"
                 end in
  let h := headers_set [] (js "Access-Control-Allow-Origin") allowed in
  let h := headers_set h (js "Access-Control-Allow-Methods")
             (js "GET, POST, PUT, DELETE, OPTIONS") in
  let h := headers_set h (js "Access-Control-Allow-Headers")
             (js "Content-Type, Authorization, X-Requested-With, Apikey, X-CSRF-Token, X-Custom-Header") in
  headers_set h (js "Access-Control-Max-Age") (js "86400").

(** [new NextResponse(text, { status })] with a body that is not null, as
    the Fetch standard defines the [Response] constructor: a status outside
    200..599 is a [RangeError]; a null body status (101, 103, 204, 205, 304,
    of which the first two are out of range already) with a body is a
    [TypeError]. *)
Inductive InitError : Type :=
| StatusOutOfRange
| NullBodyStatus.

Definition response_init_error (status : Z) : option InitError :=
  if negb ((200 <=? status)%Z && (status <=? 599)%Z) then Some StatusOutOfRange
  else if (status =? 204)%Z || (status =? 205)%Z || (status =? 304)%Z
       then Some NullBodyStatus
  else None.

Section MockRoute.

(** The store: the profile of a route prefix and the mocks of a user for
    a method, in the order the store returns them. *)
Variable profiles_single : jsstring -> Exc (QueryResult jsstring).
Variable mock_endpoints_select :
  jsstring -> jsstring -> Exc (QueryResult (list DbMockEndpoint)).

(** [String.prototype.toUpperCase] *)
Variable toUpperCase : jsstring -> jsstring.

(** The matcher of the path-to-regexp package. *)
Variable pathMatch : jsstring -> jsstring -> MatchResult.

(** Step 3 of [findMatchingMock]: the [for] loop over the rows. *)
Fixpoint find_loop (mocks : list DbMockEndpoint)
    (requestedSlugParts : list jsstring) : Exc (option DbMockEndpoint) :=
  match mocks with
  | [] => Ok None
  | mock :: rest =>
      match pathMatch (fullPathTemplate mock)
              (normalizedReqPath requestedSlugParts) with
      | MatchThrows e => Raise e
      | Matched _ => Ok (Some mock)
      | NoMatch => find_loop rest requestedSlugParts
      end
  end.

Definition findMatchingMock (apiRoutePrefix requestedMethod : jsstring)
    (requestedSlugParts : list jsstring) : Exc (option DbMockEndpoint) :=
  match profiles_single apiRoutePrefix with
  | Raise e => Raise e
  | Ok {| data := Some userId; error := None |} =>
      match mock_endpoints_select userId (toUpperCase requestedMethod) with
      | Raise e => Raise e
      | Ok {| data := Some userMocksAndProjects; error := None |} =>
          find_loop userMocksAndProjects requestedSlugParts
      | Ok _ => Ok None
      end
  | Ok _ => Ok None
  end.

Variable World : Type.
Variable faker : FakerNode World.
Variable JSON_parse : jsstring -> option JsonValue.

Definition NOT_FOUND_BODY : JsonValue :=
  JObject [(js "error",
            JString (js "Mock definition not found for this path and method."))].

Definition internal_error_body (message : jsstring) : JsonValue :=
  JObject [(js "error", JString (js "Internal Server Error"));
           (js "details", JString message)].

(** [JSON.stringify(data)] in [handleRequest]: [Some message] when the call
    throws, [None] when it returns the text of the body.  It throws on a
    value it cannot write (a bigint that a generator has returned, which
    the value type here does not hold), so the occasion is left to the
    runtime. *)
Variable stringify_error : JsonValue -> option jsstring.

(** The message of the error the [Response] constructor throws. *)
Variable init_error_message : InitError -> Z -> jsstring.

(** [handleRequest]: the method and origin of the request, the route
    parameters, and the world the generators run in.  The matching, the
    generation, the serialisation of the data and the construction of the
    response stand in one [try] block; whatever is thrown there is answered
    by the [catch] block. *)
Definition handleRequest (method : jsstring) (origin : option jsstring)
    (api_route_prefix : jsstring) (slug : option (list jsstring))
    (w : World) : Response * World :=
  let requestedSlugParts := match slug with Some s => s | None => [] end in
  let corsHeaders := getCorsHeaders origin in
  let caught message :=
    {| body := internal_error_body message; status := 500;
       headers := corsHeaders |} in
  match findMatchingMock api_route_prefix method requestedSlugParts with
  | Ok (Some mockDefinition) =>
      let (data, w') :=
        generateMockData faker JSON_parse
          (response_structure mockDefinition) (is_array mockDefinition)
          (array_count mockDefinition) w in
      match stringify_error data with
      | Some message => (caught message, w')
      | None =>
          match response_init_error (status_code mockDefinition) with
          | Some e =>
              (caught (init_error_message e (status_code mockDefinition)), w')
          | None =>
              ({| body := data;
                  status := status_code mockDefinition;
                  headers := headers_set corsHeaders (js "Content-Type")
                               (js "application/json") |}, w')
          end
      end
  | Ok None =>
      ({| body := NOT_FOUND_BODY; status := 404; headers := corsHeaders |}, w)
  | Raise message => (caught message, w)
  end.

End MockRoute.

(** The candidate [mock] is the first of [candidates] whose canonical
    pattern matches the path [requested]: every candidate before it was
    tried and did not match. *)
Definition first_match (pathMatch : jsstring -> jsstring -> MatchResult)
    (candidates : list DbMockEndpoint) (requested : jsstring)
    (mock : DbMockEndpoint) : Prop :=
  exists before after params,
    candidates = before ++ mock :: after /\
    Forall (fun c => pathMatch (fullPathTemplate c) requested = NoMatch) before /\
    pathMatch (fullPathTemplate mock) requested = Matched params.

Definition is_matched (r : MatchResult) : bool :=
  match r with
  | Matched _ => true
  | _ => false
  end.

(** Two results of the matcher that differ in the captured values only. *)
Definition same_outcome (r1 r2 : MatchResult) : Prop :=
  match r1, r2 with
  | NoMatch, NoMatch => True
  | Matched _, Matched _ => True
  | MatchThrows e1, MatchThrows e2 => e1 = e2
  | _, _ => False
  end.

(** Modelled from the spec: the structural match of the [match] function
    the route imports from the path-to-regexp package, which is not among
    the sources.  The pattern and the path are cut at the slashes; the
    segment counts must agree; a segment of the pattern that starts with a
    colon matches any single non-empty segment and captures it under its
    name; any other segment must be equal to the segment of the path. *)
Fixpoint match_segments (pattern path : list jsstring)
    : option (list (jsstring * jsstring)) :=
  match pattern, path with
  | [], [] => Some []
  | p :: ps, r :: rs =>
      match p with
      | c :: name =>
          if N.eqb c COLON then
            match r with
            | [] => None
            | _ :: _ =>
                match match_segments ps rs with
                | Some params => Some ((name, r) :: params)
                | None => None
                end
            end
          else if str_eqb p r then match_segments ps rs else None
      | [] => if str_eqb p r then match_segments ps rs else None
      end
  | _, _ => None
  end.

Definition structural_match (pattern path : jsstring) : MatchResult :=
  match match_segments (split SLASH pattern) (split SLASH path) with
  | Some params => Matched params
  | None => NoMatch
  end.

(** ** A small instance

    One tenant with two overlapping routes, a generator registry with one
    generator that counts and one that throws, used to run the definitions
    on concrete requests. *)

(** [toUpperCase] on ASCII text. *)
Definition upper_ascii (s : jsstring) : jsstring :=
  map (fun c => if ((97 <=? c) && (c <=? 122))%N then (c - 32)%N else c) s.

Definition route (mock_id path : jsstring) : DbMockEndpoint :=
  {| id := mock_id; user_id := js "user-1"; path_template := path;
     http_method := js "GET";
     response_structure := JObject [(js "n", JNumber 5)];
     is_array := false; array_count := 1; status_code := 200;
     projects := None |}.

Definition items_by_id : DbMockEndpoint := route (js "mock-1") (js "/items/:id").
Definition items_active : DbMockEndpoint := route (js "mock-2") (js "/items/active").
Definition items_unnamed : DbMockEndpoint := route (js "mock-3") (js "/items/:").

(** The profile of the prefix [acme]; any other prefix is reported as an
    error by the store, as [.single()] does when no row is found. *)
Definition acme_profiles (apiRoutePrefix : jsstring) : Exc (QueryResult jsstring) :=
  if str_eqb apiRoutePrefix (js "acme")
  then Ok {| data := Some (js "user-1"); error := None |}
  else Ok {| data := None; error := Some (js "PGRST116") |}.

Definition rows_for (rows : list DbMockEndpoint) (userId method : jsstring)
    : Exc (QueryResult (list DbMockEndpoint)) :=
  if str_eqb userId (js "user-1") && str_eqb method (js "GET")
  then Ok {| data := Some rows; error := None |}
  else Ok {| data := Some []; error := None |}.

(** The store with [/items/:id] declared before [/items/active]. *)
Definition acme_mocks := rows_for [items_by_id; items_active].

(** A matcher that rejects the pattern [/items/:], whose parameter has no
    name, as the library does when it parses the pattern, and is the
    structural match on any other pattern. *)
Definition rejecting_match (pattern path : jsstring) : MatchResult :=
  if str_eqb pattern (js "/items/:")
  then MatchThrows (js "Missing parameter name at 7")
  else structural_match pattern path.

(** The matcher with the captured values erased. *)
Definition erased_match (pattern path : jsstring) : MatchResult :=
  match structural_match pattern path with
  | Matched _ => Matched []
  | r => r
  end.

(** A generator that returns the number of calls made so far. *)
Definition counting : FakerFunction nat :=
  fun _ w => (Returns (JNumber (inject_Z (Z.of_nat w))), S w).

(** A generator that throws. *)
Definition failing : FakerFunction nat :=
  fun _ w => (Throws, S w).

Definition small_faker : FakerNode nat :=
  FObject [(js "number", FObject [(js "int", FFunction counting)]);
           (js "helpers", FObject [(js "fail", FFunction failing)])].

(** A parser that accepts the JSON texts [1] and [null] and rejects the
    rest; the texts it is run on below are these two and one that is not
    JSON. *)
Definition small_parse (text : jsstring) : option JsonValue :=
  if str_eqb text (js "1") then Some (JNumber 1)
  else if str_eqb text (js "null") then Some JNull
  else None.

(** The serialisation of a value of the JSON type does not throw. *)
Definition writes_json (data : JsonValue) : option jsstring := None.

(** The messages of the [Response] constructor, as one runtime words them. *)
Definition runtime_message (e : InitError) (status : Z) : jsstring :=
  match e with
  | StatusOutOfRange =>
      js "init[status] must be in the range of 200 to 599, inclusive."
  | NullBodyStatus => js "Response constructor: Invalid response status code"
  end.

(** The route [/items] stored with the status 204, which the schema of the
    management routes accepts. *)
Definition items_no_content : DbMockEndpoint :=
  {| id := js "mock-5"; user_id := js "user-1"; path_template := js "/items";
     http_method := js "GET";
     response_structure := JObject [(js "n", JNumber 5)];
     is_array := false; array_count := 1; status_code := 204;
     projects := None |}.

(** * Properties *)

(** ** Strings *)

Lemma str_eqb_eq (a b : jsstring) : str_eqb a b = true <-> a = b.
Proof.
  revert b; induction a as [|x a IH]; intros [|y b]; simpl;
    split; try congruence; intros H.
  - apply andb_true_iff in H as [Hx Hr].
    apply N.eqb_eq in Hx. apply IH in Hr. congruence.
  - inversion H; subst. rewrite N.eqb_refl. simpl. now apply IH.
Qed.

Lemma str_eqb_refl (a : jsstring) : str_eqb a a = true.
Proof. now apply str_eqb_eq. Qed.

Lemma str_eqb_neq (a b : jsstring) : str_eqb a b = false <-> a <> b.
Proof.
  split; intros H.
  - intros E. apply str_eqb_eq in E. congruence.
  - destruct (str_eqb a b) eqn:E; [|reflexivity].
    apply str_eqb_eq in E. contradiction.
Qed.

Lemma startsWith_spec (p s : jsstring) :
  startsWith p s = true <-> exists r, s = p ++ r.
Proof.
  revert s; induction p as [|x p IH]; intros s; simpl.
  - split; [intros _; now exists s | reflexivity].
  - destruct s as [|y s].
    + split; [discriminate | intros [r Hr]; discriminate].
    + rewrite andb_true_iff, N.eqb_eq, IH. split.
      * intros [-> [r ->]]. now exists r.
      * intros [r Hr]. inversion Hr; subst. split; [reflexivity | now exists r].
Qed.

Lemma endsWith_spec (p s : jsstring) :
  endsWith p s = true <-> exists r, s = r ++ p.
Proof.
  unfold endsWith. rewrite andb_true_iff, Nat.leb_le, str_eqb_eq. split.
  - intros [_ H]. remember (length s - length p)%nat as n eqn:En.
    exists (firstn n s). rewrite <- H. symmetry. apply firstn_skipn.
  - intros [r ->]. rewrite length_app. split; [lia|].
    replace (length r + length p - length p)%nat with (length r + 0)%nat by lia.
    rewrite skipn_app, skipn_all2 by lia.
    replace (length r + 0 - length r)%nat with 0%nat by lia. reflexivity.
Qed.

Lemma span_spec (p : N -> bool) (s a b : jsstring) :
  span p s = (a, b) ->
  s = a ++ b /\ forallb p a = true /\
  match b with [] => True | c :: _ => p c = false end.
Proof.
  revert a b; induction s as [|c s IH]; intros a b; simpl.
  - intros H; inversion H; subst. auto.
  - destruct (p c) eqn:Hc.
    + destruct (span p s) as [a' b'] eqn:Hs. intros H; inversion H; subst.
      destruct (IH a' b eq_refl) as (-> & Ha & Hb).
      simpl. rewrite Hc. auto.
    + intros H; inversion H; subst. simpl. auto.
Qed.

Lemma span_app (p : N -> bool) (a b : jsstring) :
  forallb p a = true ->
  match b with [] => True | c :: _ => p c = false end ->
  span p (a ++ b) = (a, b).
Proof.
  induction a as [|c a IH]; simpl; intros Ha Hb.
  - destruct b as [|c b]; [reflexivity|]. simpl. now rewrite Hb.
  - apply andb_true_iff in Ha as [Hc Ha]. now rewrite Hc, IH.
Qed.

(** ** Regular expressions *)

Lemma matches_Chr (c : N) (s : jsstring) : matches (Chr c) s <-> s = [c].
Proof.
  split; [intros H; now inversion H | intros ->; constructor].
Qed.

Lemma matches_Class (p : N -> bool) (s : jsstring) :
  matches (Class p) s <-> exists c, s = [c] /\ p c = true.
Proof.
  split.
  - intros H; inversion H; subst. eauto.
  - intros (c & -> & Hc). now constructor.
Qed.

Lemma matches_Cat (r1 r2 : regex) (s : jsstring) :
  matches (Cat r1 r2) s <->
  exists s1 s2, s = s1 ++ s2 /\ matches r1 s1 /\ matches r2 s2.
Proof.
  split.
  - intros H; inversion H; subst. eauto.
  - intros (s1 & s2 & -> & H1 & H2). now constructor.
Qed.





(** [template_match] computes the decomposition, and only it. *)
Lemma template_match_sound (s path : jsstring) (args : option jsstring) :
  template_match s = Some (path, args) -> is_template s path args.
Proof.
  unfold template_match.
  destruct (startsWith [LBRACE; LBRACE] s) eqn:Hs; [|discriminate].
  apply startsWith_spec in Hs as [r ->].
  change (skipn 2 ([LBRACE; LBRACE] ++ r)) with r.
  destruct (span is_path_char r) as [p rest] eqn:Hsp.
  apply span_spec in Hsp as (-> & Hp & Hrest).
  destruct p as [|c p]; [discriminate|].
  destruct (str_eqb rest [RBRACE; RBRACE]) eqn:Hr.
  - apply str_eqb_eq in Hr. subst rest. intros H; inversion H; subst.
    repeat split; auto. discriminate.
  - destruct (startsWith [LPAREN] rest && endsWith [RPAREN; RBRACE; RBRACE] (skipn 1 rest))
      eqn:Hg; [|discriminate].
    apply andb_true_iff in Hg as [Hl He].
    apply startsWith_spec in Hl as [r2 ->].
    change (skipn 1 ([LPAREN] ++ r2)) with r2 in *.
    apply endsWith_spec in He as [a ->]. cbn [app].
    replace (length (LPAREN :: a ++ [RPAREN; RBRACE; RBRACE]) - 4)%nat
      with (length a + 0)%nat by (simpl; rewrite length_app; simpl; lia).
    rewrite firstn_app_2. cbn [firstn]. rewrite app_nil_r.
    destruct (forallb is_dot_char a) eqn:Ha; [|discriminate].
    intros H; inversion H; subst.
    repeat split; auto. discriminate.
Qed.

Lemma template_match_complete (s path : jsstring) (args : option jsstring) :
  is_template s path args -> template_match s = Some (path, args).
Proof.
  intros (Hne & Hp & H). unfold template_match.
  destruct path as [|c p]; [contradiction|].
  destruct args as [a|].
  - destruct H as [Ha ->]. cbn [app startsWith skipn].
    rewrite !N.eqb_refl. cbn [andb].
    change (c :: p ++ LPAREN :: a ++ [RPAREN; RBRACE; RBRACE])
      with ((c :: p) ++ LPAREN :: a ++ [RPAREN; RBRACE; RBRACE]).
    rewrite span_app by (auto; reflexivity).
    cbn [str_eqb]. change (N.eqb LPAREN RBRACE) with false. cbn [andb].
    cbn [startsWith skipn]. rewrite N.eqb_refl. cbn [andb].
    replace (endsWith [RPAREN; RBRACE; RBRACE] (a ++ [RPAREN; RBRACE; RBRACE]))
      with true by (symmetry; apply endsWith_spec; now exists a).
    replace (length (LPAREN :: a ++ [RPAREN; RBRACE; RBRACE]) - 4)%nat
      with (length a + 0)%nat by (simpl; rewrite length_app; simpl; lia).
    rewrite firstn_app_2. cbn [firstn]. rewrite app_nil_r, Ha. reflexivity.
  - subst s. cbn [app startsWith skipn].
    rewrite !N.eqb_refl. cbn [andb].
    change (c :: p ++ [RBRACE; RBRACE]) with ((c :: p) ++ [RBRACE; RBRACE]).
    rewrite span_app by (auto; reflexivity).
    now rewrite str_eqb_refl.
Qed.


(** A string has one decomposition at most: the captures do not depend on
    the order in which a matcher tries the alternatives. *)
Lemma is_template_unique (s p1 p2 : jsstring) (a1 a2 : option jsstring) :
  is_template s p1 a1 -> is_template s p2 a2 -> p1 = p2 /\ a1 = a2.
Proof.
  intros H1 H2.
  apply template_match_complete in H1. apply template_match_complete in H2.
  rewrite H1 in H2. inversion H2. auto.
Qed.



(** ** JSON values *)

Section JsonInduction.

Variable P : JsonValue -> Prop.
Hypothesis P_null : P JNull.
Hypothesis P_bool : forall b, P (JBool b).
Hypothesis P_number : forall q, P (JNumber q).
Hypothesis P_string : forall s, P (JString s).
Hypothesis P_array : forall items, Forall P items -> P (JArray items).
Hypothesis P_object :
  forall props, Forall (fun kv => P (snd kv)) props -> P (JObject props).

(** Induction on a JSON value, with the property on every item of an
    array and on every property value of an object. *)
Fixpoint JsonValue_ind (v : JsonValue) : P v :=
  match v with
  | JNull => P_null
  | JBool b => P_bool b
  | JNumber q => P_number q
  | JString s => P_string s
  | JArray items =>
      P_array
        (list_ind (Forall P) (Forall_nil P)
           (fun x _ IH => Forall_cons x (JsonValue_ind x) IH) items)
  | JObject props =>
      P_object
        (list_ind (Forall (fun kv => P (snd kv))) (Forall_nil _)
           (fun kv _ IH => Forall_cons kv (JsonValue_ind (snd kv)) IH) props)
  end.

End JsonInduction.

(** The round trip through JSON text gives back the same content. *)
Lemma deepCopy_id (v : JsonValue) : deepCopy v = v.
Proof.
  induction v using JsonValue_ind; simpl; try reflexivity; f_equal.
  - induction H as [|x l Hx _ IH]; simpl; [reflexivity|]. now rewrite Hx, IH.
  - induction H as [|[k x] l Hx _ IH]; simpl in *; [reflexivity|].
    now rewrite Hx, IH.
Qed.

(** ** The walker and the template resolver *)

Lemma unknown_path_marker_contains (fakerPath : jsstring) :
  contains fakerPath (unknown_path_marker fakerPath).
Proof. now exists (js "Error: Unknown Faker Path ("), (js ")"). Qed.

Lemma faker_error_marker_contains (fakerPath : jsstring) :
  contains fakerPath (faker_error_marker fakerPath).
Proof. now exists (js "Error: Faker ("), (js ")"). Qed.

(** No error marker is itself a template: it starts with the letter E. *)
Lemma unknown_path_marker_plain (fakerPath : jsstring) :
  template_match (unknown_path_marker fakerPath) = None.
Proof. reflexivity. Qed.

Lemma faker_error_marker_plain (fakerPath : jsstring) :
  template_match (faker_error_marker fakerPath) = None.
Proof. reflexivity. Qed.

Lemma template_starts_with_brace (s fakerPath : jsstring) (args : option jsstring) :
  template_match s = Some (fakerPath, args) -> exists r, s = LBRACE :: r.
Proof.
  intros H. apply template_match_sound in H as (_ & _ & H).
  destruct args as [a|]; [destruct H as [_ ->] | subst s]; eexists; reflexivity.
Qed.


Section GeneratorProperties.

Variable World : Type.
Variable faker : FakerNode World.
Variable JSON_parse : jsstring -> option JsonValue.

Local Abbreviation processValue := (processValue faker JSON_parse).
Local Abbreviation expandTemplate := (expandTemplate faker JSON_parse).
Local Abbreviation generateMockData := (generateMockData faker JSON_parse).
Local Abbreviation generate_items := (generate_items faker JSON_parse).
Local Abbreviation world_after := (world_after faker JSON_parse).
Local Abbreviation getFakerFunction := (getFakerFunction faker).
Local Abbreviation static_failure := (static_failure faker JSON_parse).
Local Abbreviation with_markers := (with_markers faker JSON_parse).
Local Abbreviation LeafFailure := (LeafFailure faker JSON_parse).

Lemma processValue_string (s : jsstring) (w : World) :
  processValue (JString s) w =
  match template_match s with
  | Some (fakerPath, args) => expandTemplate fakerPath args w
  | None => (JString s, w)
  end.
Proof. reflexivity. Qed.

Lemma processValue_array (items : list JsonValue) (w : World) :
  processValue (JArray items) w =
  let (items', w') := process_items processValue items w in (JArray items', w').
Proof. reflexivity. Qed.

Lemma processValue_object (props : list (jsstring * JsonValue)) (w : World) :
  processValue (JObject props) w =
  let (newObj, w') := process_props processValue props [] w in (JObject newObj, w').
Proof. reflexivity. Qed.

(** The items before and after one item of an array are walked by the
    same loop, whatever the item in between expands to. *)
Lemma process_items_app (before after : list JsonValue) (item : JsonValue)
    (w0 w : World) (done : list JsonValue) :
  process_items processValue before w0 = (done, w) ->
  process_items processValue (before ++ item :: after) w0 =
  let (item', w1) := processValue item w in
  let (rest, w2) := process_items processValue after w1 in
  (done ++ item' :: rest, w2).
Proof.
  revert w0 done. induction before as [|x before IH]; intros w0 done H.
  - simpl in H. inversion H; subst. reflexivity.
  - cbn [app process_items] in *.
    destruct (processValue x w0) as [x' wx].
    destruct (process_items processValue before wx) as [d wd] eqn:Hd.
    inversion H; subst. rewrite (IH wx d Hd).
    destruct (processValue item w) as [item' w1].
    now destruct (process_items processValue after w1).
Qed.

Lemma process_props_app (before after : list (jsstring * JsonValue))
    (key : jsstring) (v : JsonValue) (w0 w : World)
    (acc0 acc : list (jsstring * JsonValue)) :
  process_props processValue before acc0 w0 = (acc, w) ->
  process_props processValue (before ++ (key, v) :: after) acc0 w0 =
  let (v', w1) := processValue v w in
  process_props processValue after (obj_set acc key v') w1.
Proof.
  revert w0 acc0. induction before as [|[k x] before IH]; intros w0 acc0 H.
  - simpl in H. inversion H; subst. reflexivity.
  - cbn [app process_props] in *.
    destruct (processValue x w0) as [x' wx]. now apply IH.
Qed.

(** *** The repeat mode of [generateMockData] *)

Lemma generate_items_spec (n : nat) (structure : JsonValue) (w : World) :
  length (fst (generate_items n structure w)) = n /\
  snd (generate_items n structure w) = world_after n structure w /\
  forall i, (i < n)%nat ->
    nth_error (fst (generate_items n structure w)) i =
    Some (fst (processValue (deepCopy structure) (world_after i structure w))).
Proof.
  revert w. induction n as [|n IH]; intros w; cbn [generate_items world_after].
  - repeat split; intros i Hi; lia.
  - destruct (processValue (deepCopy structure) w) as [item w1] eqn:Hitem.
    destruct (IH w1) as (Hlen & Hw & Hnth).
    destruct (generate_items n structure w1) as [results w2].
    cbn [fst snd] in *. repeat split; [simpl; lia | assumption |].
    intros [|i] Hi; cbn [nth_error world_after].
    + now rewrite Hitem.
    + rewrite Hitem. cbn [snd]. apply Hnth. lia.
Qed.

(** C2: in array mode with [arrayCount = N], [generateMockData] returns an
    array of exactly [max(1, N)] elements; the element at index [i] is the
    result of a walk of its own, over a deep copy of the template made for
    that walk, started in the world the [i] walks before it have left. *)
Theorem generateMockData_array_mode (structure : JsonValue) (arrayCount : Z)
    (w : World) :
  exists results w',
    generateMockData structure true arrayCount w = (JArray results, w') /\
    Z.of_nat (length results) = Z.max 1 arrayCount /\
    w' = world_after (length results) structure w /\
    forall i, (i < length results)%nat ->
      nth_error results i =
      Some (fst (processValue (deepCopy structure) (world_after i structure w))).
Proof.
  unfold generateMockData.
  destruct (generate_items_spec (Z.to_nat (Z.max 1 arrayCount)) structure w)
    as (Hlen & Hw & Hnth).
  destruct (generate_items (Z.to_nat (Z.max 1 arrayCount)) structure w)
    as [results w'].
  cbn [fst snd] in *. exists results, w'. split; [reflexivity|].
  split; [lia|]. split; [now rewrite Hlen|].
  intros i Hi. apply Hnth. lia.
Qed.


Lemma expandTemplate_failure (fakerPath : jsstring) (args : option jsstring)
    (w w' : World) (marker : jsstring) :
  LeafFailure fakerPath args w marker w' ->
  expandTemplate fakerPath args w = (JString marker, w').
Proof.
  unfold expandTemplate, invoke.
  intros [Hf | f a Hf -> Ht Hp | f a v w1 Hf -> Ht Hp Hc | f w1 Hf Hn Hc];
    rewrite Hf; try reflexivity.
  - apply str_eqb_neq in Ht. now rewrite Ht, Hp.
  - apply str_eqb_neq in Ht. now rewrite Ht, Hp, Hc.
  - destruct args as [a|]; [|now rewrite Hc].
    simpl in Hn. rewrite Hn. cbn [str_eqb negb]. now rewrite Hc.
Qed.

Lemma process_items_ext (f : JsonValue -> JsonValue) (items : list JsonValue)
    (w : World) :
  Forall (fun v => forall w, processValue (f v) w = processValue v w) items ->
  process_items processValue (map f items) w = process_items processValue items w.
Proof.
  intros H. revert w. induction H as [|x l Hx _ IH]; intros w; [reflexivity|].
  cbn [map process_items]. rewrite Hx.
  destruct (processValue x w) as [x' w1]. now rewrite IH.
Qed.

Lemma process_props_ext (f : JsonValue -> JsonValue)
    (props acc : list (jsstring * JsonValue)) (w : World) :
  Forall (fun kv => forall w, processValue (f (snd kv)) w = processValue (snd kv) w)
    props ->
  process_props processValue (map (fun kv => (fst kv, f (snd kv))) props) acc w
  = process_props processValue props acc w.
Proof.
  intros H. revert acc w. induction H as [|[k x] l Hx _ IH]; intros acc w; [reflexivity|].
  cbn [map process_props fst snd] in *. rewrite Hx.
  destruct (processValue x w) as [x' w1]. apply IH.
Qed.

Lemma static_failure_leaf (s marker : jsstring) (w : World) :
  static_failure s = Some marker ->
  processValue (JString s) w = (JString marker, w) /\
  processValue (JString marker) w = (JString marker, w).
Proof.
  unfold static_failure. rewrite !processValue_string.
  destruct (template_match s) as [[fakerPath args]|]; [|discriminate].
  unfold expandTemplate.
  destruct (getFakerFunction fakerPath) as [f|].
  - destruct args as [a|]; [|discriminate].
    destruct (negb (str_eqb (trim a) [])); [|discriminate].
    destruct (JSON_parse a); [discriminate|].
    intros H; inversion H; subst. now rewrite faker_error_marker_plain.
  - intros H; inversion H; subst. now rewrite unknown_path_marker_plain.
Qed.

(** The other leaves do not see these failures: the expansion is the one
    of the template in which the failed leaves were plain marker strings
    from the start. *)
Lemma processValue_with_markers (v : JsonValue) (w : World) :
  processValue (with_markers v) w = processValue v w.
Proof.
  revert w. induction v using JsonValue_ind; intros w; try reflexivity.
  - cbn [with_markers]. destruct (static_failure s) as [marker|] eqn:E; [|reflexivity].
    destruct (@static_failure_leaf s marker w E) as [H1 H2]. now rewrite H1, H2.
  - cbn [with_markers]. rewrite !processValue_array. now rewrite process_items_ext.
  - cbn [with_markers]. rewrite !processValue_object. now rewrite process_props_ext.
Qed.

(** C4: the recovery of a failed leaf fails at a leaf stored under the key
    [__proto__].  The leaf [{{name.first}}], whose path is unknown, is
    replaced by its marker when it is walked on its own and when it stands
    under the key [b]; under the key [__proto__] inside the value of [a]
    the expansion holds neither the leaf nor its marker: the value of [a]
    is the empty object. *)
Theorem failed_leaf_under_proto_is_dropped (arrayCount : Z) (w : World) :
  processValue (JString (js "{{name.first}}")) w
    = (JString (js "Error: Unknown Faker Path (name.first)"), w) /\
  generateMockData
    (JObject [(js "a", JObject [(js "b", JString (js "{{name.first}}"))])])
    false arrayCount w
    = (JObject [(js "a", JObject [(js "b",
         JString (js "Error: Unknown Faker Path (name.first)"))])], w) /\
  generateMockData
    (JObject [(js "a", JObject [(PROTO, JString (js "{{name.first}}"))])])
    false arrayCount w
    = (JObject [(js "a", JObject [])], w).
Proof.
  repeat split; reflexivity.
Qed.

(** C6: for a path that resolves to a generator, the template without
    parentheses and the template with empty or blank parentheses both call
    the generator with no argument, in the same world: both expand to what
    that call returns, or to the error marker when it throws, and leave the
    world the call has left. *)
Theorem blank_parentheses_same_call (s fakerPath a : jsstring)
    (fakerFunc : FakerFunction World) (w : World) :
  template_match s = Some (fakerPath, Some a) ->
  trim a = [] ->
  getFakerFunction fakerPath = Some fakerFunc ->
  template_match ([LBRACE; LBRACE] ++ fakerPath ++ [RBRACE; RBRACE])
    = Some (fakerPath, None) /\
  processValue (JString s) w
    = match fakerFunc None w with
      | (Returns result, w') => (result, w')
      | (Throws, w') => (JString (faker_error_marker fakerPath), w')
      end /\
  processValue (JString ([LBRACE; LBRACE] ++ fakerPath ++ [RBRACE; RBRACE])) w
    = match fakerFunc None w with
      | (Returns result, w') => (result, w')
      | (Throws, w') => (JString (faker_error_marker fakerPath), w')
      end.
Proof.
  intros Hm Ht Hf.
  assert (Hbare : template_match ([LBRACE; LBRACE] ++ fakerPath ++ [RBRACE; RBRACE])
                  = Some (fakerPath, None)).
  { apply template_match_sound in Hm as (Hne & Hp & _).
    apply template_match_complete. repeat split; auto. }
  split; [exact Hbare|].
  rewrite !processValue_string, Hm, Hbare.
  unfold expandTemplate, invoke. rewrite Hf, Ht. cbn [str_eqb negb].
  destruct (fakerFunc None w) as [[result|] w']; auto.
Qed.

(** C10: a leaf that matches the template grammar but whose dotted path
    does not start with the segment [faker] is not passed through: it is
    replaced by the unknown-path error marker, which contains that path
    and differs from the leaf. *)
Theorem non_faker_path_is_unknown (s fakerPath : jsstring)
    (args : option jsstring) (w : World) :
  template_match s = Some (fakerPath, args) ->
  hd [] (split DOT fakerPath) <> js "faker" ->
  processValue (JString s) w = (JString (unknown_path_marker fakerPath), w) /\
  contains fakerPath (unknown_path_marker fakerPath) /\
  JString (unknown_path_marker fakerPath) <> JString s.
Proof.
  intros Hm Hhd.
  assert (Hf : getFakerFunction fakerPath = None).
  { unfold getFakerFunction.
    destruct (split DOT fakerPath) as [|first rest]; [reflexivity|].
    cbn [hd] in Hhd. apply str_eqb_neq in Hhd. now rewrite Hhd. }
  split; [|split].
  - rewrite processValue_string, Hm. unfold expandTemplate. now rewrite Hf.
  - apply unknown_path_marker_contains.
  - apply template_starts_with_brace in Hm as [r ->]. discriminate.
Qed.

End GeneratorProperties.

(** ** Templates without generator calls *)

Lemma str_eqb_sym (a b : jsstring) : str_eqb a b = str_eqb b a.
Proof.
  destruct (str_eqb a b) eqn:E; symmetry.
  - apply str_eqb_eq in E. subst. apply str_eqb_refl.
  - apply str_eqb_neq. apply str_eqb_neq in E. congruence.
Qed.

Lemma distinct_app_cons (a b : list jsstring) (k : jsstring) :
  distinct (a ++ k :: b) = true -> existsb (str_eqb k) a = false.
Proof.
  induction a as [|x a IH]; simpl; intros H; [reflexivity|].
  apply andb_true_iff in H as [Hx Ha].
  rewrite (IH Ha), orb_false_r.
  rewrite existsb_app in Hx. simpl in Hx.
  rewrite str_eqb_sym.
  destruct (str_eqb x k); [|reflexivity].
  rewrite orb_true_r in Hx. discriminate.
Qed.

Section PlainTemplates.

Variable World : Type.
Variable faker : FakerNode World.
Variable JSON_parse : jsstring -> option JsonValue.

Local Abbreviation processValue := (processValue faker JSON_parse).

Lemma process_items_fixed (items : list JsonValue) (w : World) :
  Forall (fun v => forall w, processValue v w = (v, w)) items ->
  process_items processValue items w = (items, w).
Proof.
  induction 1 as [|x l Hx _ IH]; simpl; [reflexivity|].
  now rewrite Hx, IH.
Qed.

Lemma process_props_fixed (props acc : list (jsstring * JsonValue)) (w : World) :
  Forall (fun kv => forall w, processValue (snd kv) w = (snd kv, w)) props ->
  distinct (keys acc ++ keys props) = true ->
  has_key PROTO props = false ->
  process_props processValue props acc w = (acc ++ props, w).
Proof.
  intros H. revert acc. induction H as [|[k v] l Hv _ IH]; intros acc Hd Hp.
  - simpl. now rewrite app_nil_r.
  - cbn [process_props]. cbn [snd] in Hv. rewrite Hv.
    unfold has_key, keys in Hp, Hd. cbn [map existsb fst] in Hp, Hd.
    apply orb_false_iff in Hp as [Hk Hp].
    unfold obj_set. rewrite str_eqb_sym, Hk.
    unfold has_key, keys. rewrite (distinct_app_cons _ _ _ Hd).
    rewrite IH.
    + now rewrite <- app_assoc.
    + unfold keys. rewrite map_app, <- app_assoc. exact Hd.
    + exact Hp.
Qed.

(** X4: away from the key [__proto__] the walker is the identity on a
    template that holds no generator call: the expansion is the template
    itself and the world is left as it was. *)
Lemma processValue_fixed (v : JsonValue) :
  has_template v = false -> ordinary_keys v = true ->
  forall w, processValue v w = (v, w).
Proof.
  induction v using JsonValue_ind; intros Ht Hk w; try reflexivity.
  - simpl in *. now destruct (template_match s).
  - rewrite processValue_array, process_items_fixed; [reflexivity|].
    simpl in Ht, Hk. rewrite forallb_forall in Hk.
    rewrite Forall_forall in *. intros x Hx. apply H; [exact Hx| |now apply Hk].
    destruct (has_template x) eqn:E; [|reflexivity].
    assert (existsb has_template items = true) by (apply existsb_exists; eauto).
    congruence.
  - simpl in Ht, Hk.
    apply andb_true_iff in Hk as [Hk Hall].
    apply andb_true_iff in Hk as [Hd Hp]. apply negb_true_iff in Hp.
    rewrite forallb_forall in Hall.
    rewrite processValue_object, process_props_fixed; [reflexivity| |exact Hd|exact Hp].
    rewrite Forall_forall in *. intros kv Hkv. apply H; [exact Hkv| |now apply Hall].
    destruct (has_template (snd kv)) eqn:E; [|reflexivity].
    assert (existsb (fun kv => has_template (snd kv)) props = true)
      by (apply existsb_exists; eauto).
    congruence.
Qed.

(** C7: the identity law on templates without generator calls fails at a
    template with an object key [__proto__], here the value 1 under
    [__proto__] inside the value of [a]: the template holds no
    generator-call leaf, and its expansion in non-array mode has the empty
    object under [a], which has lost the key.  The same happens to the key
    at the top of a template. *)
Theorem proto_key_is_dropped (arrayCount : Z) (w : World) :
  has_template (JObject [(js "a", JObject [(PROTO, JNumber 1)])]) = false /\
  generateMockData faker JSON_parse
    (JObject [(js "a", JObject [(PROTO, JNumber 1)])]) false arrayCount w
    = (JObject [(js "a", JObject [])], w) /\
  JObject [(js "a", JObject [])]
    <> JObject [(js "a", JObject [(PROTO, JNumber 1)])] /\
  generateMockData faker JSON_parse (JObject [(PROTO, JNumber 1)]) false arrayCount w
    = (JObject [], w).
Proof.
  split; [reflexivity|]. split; [reflexivity|]. split; [discriminate | reflexivity].
Qed.

End PlainTemplates.

(** ** Path composition *)

Lemma ensureLeadingSlash_cons (p : jsstring) :
  exists r, ensureLeadingSlash p = SLASH :: r.
Proof.
  unfold ensureLeadingSlash. destruct (startsWith [SLASH] p) eqn:E.
  - apply startsWith_spec in E as [r ->]. now exists r.
  - now exists p.
Qed.

Lemma stripTrailingSlash_rooted (r : jsstring) :
  stripTrailingSlash (SLASH :: r) =
  if str_eqb (SLASH :: r) [SLASH] then SLASH :: r
  else if endsWith [SLASH] (SLASH :: r) then removelast (SLASH :: r)
  else SLASH :: r.
Proof.
  unfold stripTrailingSlash, slice_0_m1.
  destruct r as [|c r]; [reflexivity|].
  replace (str_eqb (SLASH :: c :: r) [SLASH]) with false
    by (symmetry; apply str_eqb_neq; discriminate).
  reflexivity.
Qed.

Lemma dropLeadingSlashes_id (p : jsstring) :
  startsWith [SLASH] p = false -> dropLeadingSlashes p = p.
Proof.
  destruct p as [|c p]; [reflexivity|].
  cbn [startsWith dropLeadingSlashes]. rewrite andb_true_r, N.eqb_sym.
  now intros ->.
Qed.

(** On an input that does not start with two slashes, the normalization of
    the code is the normalization the specification words. *)
Lemma normalize_refines_spec (p : jsstring) :
  startsWith [SLASH; SLASH] p = false ->
  stripTrailingSlash (ensureLeadingSlash p) = spec_normalize p.
Proof.
  unfold spec_normalize, ensureLeadingSlash. cbv zeta.
  destruct p as [|c p]; [reflexivity|].
  cbn [startsWith dropLeadingSlashes]. rewrite N.eqb_sym, andb_true_r.
  destruct (N.eqb c SLASH) eqn:Ec; cbn [andb]; intros H.
  - apply N.eqb_eq in Ec. subst c. rewrite (dropLeadingSlashes_id p H).
    apply stripTrailingSlash_rooted.
  - apply stripTrailingSlash_rooted.
Qed.

Lemma ensureLeadingSlash_single (p : jsstring) :
  exists r, ensureLeadingSlash p = SLASH :: r /\
            (startsWith [SLASH; SLASH] p = false -> startsWith [SLASH] r = false).
Proof.
  unfold ensureLeadingSlash. destruct p as [|c p].
  - exists []. split; reflexivity.
  - cbn [startsWith]. rewrite andb_true_r.
    destruct (N.eqb SLASH c) eqn:Ec.
    + apply N.eqb_eq in Ec. subst c. exists p. split; [reflexivity|].
      intros H. exact H.
    + exists (c :: p). split; [reflexivity|].
      intros _. cbn [startsWith]. now rewrite Ec.
Qed.

Lemma removelast_keeps_head (d : N) (r : jsstring) :
  startsWith [SLASH] (d :: r) = false ->
  startsWith [SLASH] (removelast (d :: r)) = false.
Proof.
  destruct r as [|e r]; [reflexivity|]. intros H. exact H.
Qed.

(** C5, as the code has it: a slash is put in front of an input that does
    not start with one, and an input that starts with a slash is kept as it
    is, with every slash it starts with; one trailing slash is stripped
    unless the value is exactly the root.  The result starts with a slash,
    with a single one when the input does not start with two, and it is
    then the normalization the specification words.  The two normalized
    inputs are concatenated; when the normalized endpoint pattern is the
    root, the canonical pattern is the normalized base path alone; the
    three compositions of the specification evaluate as stated. *)
Theorem compose_normalizes_and_concatenates :
  (forall r, ensureLeadingSlash (SLASH :: r) = SLASH :: r) /\
  (forall p, startsWith [SLASH] p = false -> ensureLeadingSlash p = SLASH :: p) /\
  (forall p,
      let q := ensureLeadingSlash p in
      stripTrailingSlash q =
      if str_eqb q [SLASH] then q
      else if endsWith [SLASH] q then removelast q else q) /\
  (forall p, exists r,
      stripTrailingSlash (ensureLeadingSlash p) = SLASH :: r /\
      (startsWith [SLASH; SLASH] p = false -> startsWith [SLASH] r = false)) /\
  (forall p, startsWith [SLASH; SLASH] p = false ->
      stripTrailingSlash (ensureLeadingSlash p) = spec_normalize p) /\
  (forall base p,
      compose (Some base) p =
      if str_eqb (stripTrailingSlash (ensureLeadingSlash p)) [SLASH]
      then stripTrailingSlash (ensureLeadingSlash base)
      else stripTrailingSlash (ensureLeadingSlash base)
           ++ stripTrailingSlash (ensureLeadingSlash p)) /\
  (forall base p,
      startsWith [SLASH; SLASH] base = false ->
      startsWith [SLASH; SLASH] p = false ->
      compose (Some base) p =
      if str_eqb (spec_normalize p) [SLASH] then spec_normalize base
      else spec_normalize base ++ spec_normalize p) /\
  (forall p, startsWith [SLASH; SLASH] p = false ->
      compose None p = spec_normalize p) /\
  compose (Some (js "/shop")) (js "/") = js "/shop" /\
  compose (Some (js "/shop")) (js "/items/:id") = js "/shop/items/:id" /\
  compose None (js "/items/") = js "/items".
Proof.
  split.
  { intros r. unfold ensureLeadingSlash. cbn [startsWith].
    now rewrite N.eqb_refl. }
  split.
  { intros p H. unfold ensureLeadingSlash. now rewrite H. }
  split.
  { intros p. cbv zeta. destruct (ensureLeadingSlash_cons p) as [r ->].
    apply stripTrailingSlash_rooted. }
  split.
  { intros p.
    destruct (ensureLeadingSlash_single p) as (r0 & -> & Hr0).
    unfold stripTrailingSlash, slice_0_m1.
    destruct r0 as [|d r0]; [exists []; split; reflexivity|].
    destruct ((1 <? length (SLASH :: d :: r0))%nat
              && endsWith [SLASH] (SLASH :: d :: r0)).
    - exists (removelast (d :: r0)). split; [reflexivity|].
      intros Hp. apply removelast_keeps_head. now apply Hr0.
    - exists (d :: r0). split; [reflexivity | exact Hr0]. }
  split; [exact normalize_refines_spec|].
  split; [reflexivity|].
  split.
  { intros base p Hb Hp. unfold compose.
    now rewrite (normalize_refines_spec base Hb), (normalize_refines_spec p Hp). }
  split.
  { intros p Hp. unfold compose. now apply normalize_refines_spec. }
  repeat split; reflexivity.
Qed.

(** C5, where the claim fails: the pattern [//items], which the schema of
    the management routes accepts, starts with a slash and is kept as it
    is; the canonical pattern starts with two slashes, where the
    normalization the specification words gives [/items]. *)
Lemma doubled_leading_slash_is_kept :
  compose None (js "//items") = js "//items" /\
  startsWith [SLASH; SLASH] (compose None (js "//items")) = true /\
  spec_normalize (js "//items") = js "/items" /\
  compose None (js "//items") <> spec_normalize (js "//items") /\
  compose (Some (js "//shop")) (js "/items") = js "//shop/items".
Proof.
  split; [reflexivity|]. split; [reflexivity|]. split; [reflexivity|].
  split; [|reflexivity]. vm_compute. discriminate.
Qed.

(** ** The endpoint matcher *)

Section MatcherProperties.

Variable profiles_single : jsstring -> Exc (QueryResult jsstring).
Variable mock_endpoints_select :
  jsstring -> jsstring -> Exc (QueryResult (list DbMockEndpoint)).
Variable toUpperCase : jsstring -> jsstring.

Lemma find_loop_first_match (pathMatch : jsstring -> jsstring -> MatchResult)
    (candidates : list DbMockEndpoint) (slug : list jsstring)
    (mock : DbMockEndpoint) :
  find_loop pathMatch candidates slug = Ok (Some mock) <->
  first_match pathMatch candidates (normalizedReqPath slug) mock.
Proof.
  unfold first_match. induction candidates as [|c rest IH]; cbn [find_loop].
  - split; [discriminate|]. intros (before & after & params & H & _).
    destruct before; discriminate.
  - destruct (pathMatch (fullPathTemplate c) (normalizedReqPath slug)) as [|ps|e] eqn:Hc.
    + rewrite IH. split.
      * intros (before & after & params & -> & Hb & Hm).
        exists (c :: before), after, params. repeat split; auto.
      * intros (before & after & params & Heq & Hb & Hm).
        destruct before as [|b before]; cbn [app] in Heq; inversion Heq; subst.
        -- congruence.
        -- inversion Hb; subst. exists before, after, params. auto.
    + split.
      * intros H; inversion H; subst. exists [], rest, ps. auto.
      * intros (before & after & params & Heq & Hb & Hm).
        destruct before as [|b before]; cbn [app] in Heq; inversion Heq; subst.
        -- reflexivity.
        -- inversion Hb; subst. congruence.
    + split; [discriminate|].
      intros (before & after & params & Heq & Hb & Hm).
      destruct before as [|b before]; cbn [app] in Heq; inversion Heq; subst.
      * congruence.
      * inversion Hb; subst. congruence.
Qed.

(** When no pattern is rejected, the loop is the search for the first
    candidate that matches. *)
Lemma find_loop_find (pathMatch : jsstring -> jsstring -> MatchResult)
    (candidates : list DbMockEndpoint) (slug : list jsstring) :
  (forall c e, In c candidates ->
     pathMatch (fullPathTemplate c) (normalizedReqPath slug) <> MatchThrows e) ->
  find_loop pathMatch candidates slug
  = Ok (find (fun c => is_matched (pathMatch (fullPathTemplate c)
                                     (normalizedReqPath slug))) candidates).
Proof.
  induction candidates as [|c rest IH]; intros H; cbn [find_loop find]; [reflexivity|].
  destruct (pathMatch (fullPathTemplate c) (normalizedReqPath slug)) as [|ps|e] eqn:Hc;
    cbn [is_matched].
  - apply IH. intros c' e' Hin. apply H. now right.
  - reflexivity.
  - exfalso. apply (H c e); [now left | exact Hc].
Qed.

(** The loop looks at the outcome of each match and never at the captured
    values. *)
Lemma find_loop_ignores_params (pm1 pm2 : jsstring -> jsstring -> MatchResult)
    (candidates : list DbMockEndpoint) (slug : list jsstring) :
  (forall pattern path, same_outcome (pm1 pattern path) (pm2 pattern path)) ->
  find_loop pm1 candidates slug = find_loop pm2 candidates slug.
Proof.
  intros H. induction candidates as [|c rest IH]; cbn [find_loop]; [reflexivity|].
  specialize (H (fullPathTemplate c) (normalizedReqPath slug)).
  destruct (pm1 (fullPathTemplate c) (normalizedReqPath slug)),
           (pm2 (fullPathTemplate c) (normalizedReqPath slug));
    simpl in H; try contradiction; congruence.
Qed.

(** C8 as the code has it: the matcher computes the captured values, and
    [findMatchingMock] returns the matched endpoint definition alone: two
    matchers that differ in the values they capture, and in nothing else,
    give the same result, and the response of [handleRequest] is the same
    as well. *)
Theorem captured_params_are_dropped
    (pm1 pm2 : jsstring -> jsstring -> MatchResult)
    (World : Type) (faker : FakerNode World)
    (JSON_parse : jsstring -> option JsonValue)
    (stringify_error : JsonValue -> option jsstring)
    (init_error_message : InitError -> Z -> jsstring)
    (apiRoutePrefix method : jsstring) (origin : option jsstring)
    (slug : list jsstring) (w : World) :
  (forall pattern path, same_outcome (pm1 pattern path) (pm2 pattern path)) ->
  findMatchingMock profiles_single mock_endpoints_select toUpperCase pm1
    apiRoutePrefix method slug
  = findMatchingMock profiles_single mock_endpoints_select toUpperCase pm2
      apiRoutePrefix method slug /\
  handleRequest profiles_single mock_endpoints_select toUpperCase pm1
    faker JSON_parse stringify_error init_error_message
    method origin apiRoutePrefix (Some slug) w
  = handleRequest profiles_single mock_endpoints_select toUpperCase pm2
      faker JSON_parse stringify_error init_error_message
      method origin apiRoutePrefix (Some slug) w.
Proof.
  intros H.
  assert (E : findMatchingMock profiles_single mock_endpoints_select toUpperCase pm1
                apiRoutePrefix method slug
              = findMatchingMock profiles_single mock_endpoints_select toUpperCase pm2
                  apiRoutePrefix method slug).
  { unfold findMatchingMock.
    destruct (profiles_single apiRoutePrefix) as [[[userId|] [e|]]|e]; try reflexivity.
    destruct (mock_endpoints_select userId (toUpperCase method))
      as [[[rows|] [e|]]|e]; try reflexivity.
    now apply find_loop_ignores_params. }
  split; [exact E|]. unfold handleRequest. now rewrite E.
Qed.

(** The statuses the [Response] constructor rejects for a response with a
    body: those outside 200..599, and 204, 205 and 304. *)
Lemma response_init_error_spec (status : Z) :
  response_init_error status <> None <->
  (status < 200 \/ 599 < status \/ status = 204 \/ status = 205 \/ status = 304)%Z.
Proof.
  unfold response_init_error.
  destruct (200 <=? status)%Z eqn:E1; destruct (status <=? 599)%Z eqn:E2;
    cbn [andb negb];
    try (split; [intros _; lia | discriminate]).
  destruct (status =? 204)%Z eqn:E3; destruct (status =? 205)%Z eqn:E4;
    destruct (status =? 304)%Z eqn:E5; cbn [orb];
    try (split; [intros _; lia | discriminate]).
  split; [congruence | lia].
Qed.

(** C9 as the code has it: whatever is thrown while the endpoint is
    matched, or after the match while the generated data is serialised and
    the response is built, is answered with status 500 and a body that
    holds the generic message together with the message of the error under
    [details]; the response is built without an error exactly for a stored
    status in 200..599 other than 204, 205 and 304; an error the store
    reports in its reply, for the profile or for the mocks, is answered
    with status 404 and the not-found body. *)
Theorem thrown_error_gives_500_with_details
    (pathMatch : jsstring -> jsstring -> MatchResult)
    (World : Type) (faker : FakerNode World)
    (JSON_parse : jsstring -> option JsonValue)
    (stringify_error : JsonValue -> option jsstring)
    (init_error_message : InitError -> Z -> jsstring)
    (apiRoutePrefix method : jsstring) (origin : option jsstring)
    (slug : option (list jsstring)) (w : World) :
  (forall message,
     findMatchingMock profiles_single mock_endpoints_select toUpperCase pathMatch
       apiRoutePrefix method (match slug with Some s => s | None => [] end)
     = Raise message ->
     handleRequest profiles_single mock_endpoints_select toUpperCase pathMatch
       faker JSON_parse stringify_error init_error_message
       method origin apiRoutePrefix slug w
     = ({| body := JObject [(js "error", JString (js "Internal Server Error"));
                             (js "details", JString message)];
           status := 500;
           headers := getCorsHeaders origin |}, w)) /\
  (forall mockDefinition generated w' message,
     findMatchingMock profiles_single mock_endpoints_select toUpperCase pathMatch
       apiRoutePrefix method (match slug with Some s => s | None => [] end)
     = Ok (Some mockDefinition) ->
     generateMockData faker JSON_parse (response_structure mockDefinition)
       (is_array mockDefinition) (array_count mockDefinition) w
     = (generated, w') ->
     stringify_error generated = Some message ->
     handleRequest profiles_single mock_endpoints_select toUpperCase pathMatch
       faker JSON_parse stringify_error init_error_message
       method origin apiRoutePrefix slug w
     = ({| body := JObject [(js "error", JString (js "Internal Server Error"));
                             (js "details", JString message)];
           status := 500;
           headers := getCorsHeaders origin |}, w')) /\
  (forall mockDefinition generated w' e,
     findMatchingMock profiles_single mock_endpoints_select toUpperCase pathMatch
       apiRoutePrefix method (match slug with Some s => s | None => [] end)
     = Ok (Some mockDefinition) ->
     generateMockData faker JSON_parse (response_structure mockDefinition)
       (is_array mockDefinition) (array_count mockDefinition) w
     = (generated, w') ->
     stringify_error generated = None ->
     response_init_error (status_code mockDefinition) = Some e ->
     handleRequest profiles_single mock_endpoints_select toUpperCase pathMatch
       faker JSON_parse stringify_error init_error_message
       method origin apiRoutePrefix slug w
     = ({| body := JObject [(js "error", JString (js "Internal Server Error"));
                             (js "details",
                              JString (init_error_message e
                                         (status_code mockDefinition)))];
           status := 500;
           headers := getCorsHeaders origin |}, w')) /\
  (forall stored,
     response_init_error stored = None <->
     (200 <= stored <= 599 /\ stored <> 204 /\ stored <> 205 /\ stored <> 304)%Z) /\
  (forall reported (row : option jsstring),
     profiles_single apiRoutePrefix
     = Ok {| data := row; error := Some reported |} ->
     handleRequest profiles_single mock_endpoints_select toUpperCase pathMatch
       faker JSON_parse stringify_error init_error_message
       method origin apiRoutePrefix slug w
     = ({| body := NOT_FOUND_BODY; status := 404;
           headers := getCorsHeaders origin |}, w)) /\
  (forall userId reported (rows : option (list DbMockEndpoint)),
     profiles_single apiRoutePrefix
     = Ok {| data := Some userId; error := None |} ->
     mock_endpoints_select userId (toUpperCase method)
     = Ok {| data := rows; error := Some reported |} ->
     handleRequest profiles_single mock_endpoints_select toUpperCase pathMatch
       faker JSON_parse stringify_error init_error_message
       method origin apiRoutePrefix slug w
     = ({| body := NOT_FOUND_BODY; status := 404;
           headers := getCorsHeaders origin |}, w)).
Proof.
  split; [|split; [|split; [|split; [|split]]]].
  - intros message H. unfold handleRequest. now rewrite H.
  - intros mockDefinition generated w' message H Hg Hs.
    unfold handleRequest. cbv zeta. now rewrite H, Hg, Hs.
  - intros mockDefinition generated w' e H Hg Hs He.
    unfold handleRequest. cbv zeta. now rewrite H, Hg, Hs, He.
  - intros stored. pose proof (response_init_error_spec stored) as H.
    destruct (response_init_error stored) as [e|].
    + split; [discriminate|]. intros Hr.
      assert (Hn : Some e <> None) by discriminate. apply H in Hn. lia.
    + split; [|reflexivity]. intros _.
      assert (Hn : ~ (stored < 200 \/ 599 < stored \/ stored = 204
                      \/ stored = 205 \/ stored = 304)%Z).
      { intros Hc. apply H in Hc. now apply Hc. }
      lia.
  - intros reported row H. unfold handleRequest, findMatchingMock. rewrite H.
    now destruct row.
  - intros userId reported rows Hp Hm. unfold handleRequest, findMatchingMock.
    rewrite Hp, Hm. now destruct rows.
Qed.

End MatcherProperties.

(** C1: the candidates are tried in the order the store supplies them, and
    the endpoint returned is the first one whose composed canonical pattern
    matches the normalized request path; what comes after it has no part in
    the result.  With [/items/:id] stored before [/items/active], the
    request for [/items/active] resolves to [/items/:id], the match
    capturing [id] as the segment [active]. *)
Theorem first_match_wins :
  (forall profiles_single mock_endpoints_select toUpperCase pathMatch
          apiRoutePrefix method slug userId candidates,
     profiles_single apiRoutePrefix = Ok {| data := Some userId; error := None |} ->
     mock_endpoints_select userId (toUpperCase method)
       = Ok {| data := Some candidates; error := None |} ->
     (forall mock,
        findMatchingMock profiles_single mock_endpoints_select toUpperCase
          pathMatch apiRoutePrefix method slug = Ok (Some mock)
        <-> first_match pathMatch candidates (normalizedReqPath slug) mock) /\
     ((forall c e, In c candidates ->
         pathMatch (fullPathTemplate c) (normalizedReqPath slug) <> MatchThrows e) ->
      findMatchingMock profiles_single mock_endpoints_select toUpperCase
        pathMatch apiRoutePrefix method slug
      = Ok (find (fun c => is_matched (pathMatch (fullPathTemplate c)
                                         (normalizedReqPath slug))) candidates)) /\
     (forall before mock after after' params,
        candidates = before ++ mock :: after ->
        Forall (fun c => pathMatch (fullPathTemplate c) (normalizedReqPath slug)
                         = NoMatch) before ->
        pathMatch (fullPathTemplate mock) (normalizedReqPath slug) = Matched params ->
        find_loop pathMatch (before ++ mock :: after') slug = Ok (Some mock))) /\
  fullPathTemplate items_by_id = js "/items/:id" /\
  fullPathTemplate items_active = js "/items/active" /\
  normalizedReqPath [js "items"; js "active"] = js "/items/active" /\
  structural_match (js "/items/:id") (js "/items/active")
    = Matched [(js "id", js "active")] /\
  structural_match (js "/items/active") (js "/items/active") = Matched [] /\
  findMatchingMock acme_profiles (rows_for [items_by_id; items_active])
    upper_ascii structural_match (js "acme") (js "get") [js "items"; js "active"]
    = Ok (Some items_by_id).
Proof.
  split; [|repeat split; reflexivity].
  intros profiles_single mock_endpoints_select toUpperCase pathMatch
    apiRoutePrefix method slug userId candidates Hp Hm.
  split; [|split].
  - intros mock. unfold findMatchingMock. rewrite Hp, Hm.
    apply find_loop_first_match.
  - intros Hno. unfold findMatchingMock. rewrite Hp, Hm.
    now apply find_loop_find.
  - intros before mock after after' params _ Hb Hmatch.
    apply find_loop_first_match. exists before, after', params. auto.
Qed.

(** ** The statements on the small instance *)

(** C1 on the stored routes [/items/:id] and [/items/active]: the store
    answers, and the first match for [/items/active] is [/items/:id]. *)
Lemma first_match_wins_witness :
  acme_profiles (js "acme") = Ok {| data := Some (js "user-1"); error := None |} /\
  acme_mocks (js "user-1") (upper_ascii (js "get"))
    = Ok {| data := Some [items_by_id; items_active]; error := None |} /\
  first_match structural_match [items_by_id; items_active]
    (normalizedReqPath [js "items"; js "active"]) items_by_id.
Proof.
  split; [reflexivity|]. split; [reflexivity|].
  apply (proj1 (proj1 (proj1 first_match_wins acme_profiles acme_mocks upper_ascii
                         structural_match (js "acme") (js "get")
                         [js "items"; js "active"] (js "user-1")
                         [items_by_id; items_active] eq_refl eq_refl)
                      items_by_id)).
  reflexivity.
Defined.

(** C2 on a template with one generator call, repeated twice: the second
    element is the walk started in the world the first walk has left. *)
Lemma generateMockData_array_mode_witness :
  exists results w',
    generateMockData small_faker small_parse
      (JObject [(js "n", JString (js "{{faker.number.int}}"))]) true 2 0%nat
    = (JArray results, w') /\
    nth_error results 1
    = Some (fst (processValue small_faker small_parse
                   (deepCopy (JObject [(js "n", JString (js "{{faker.number.int}}"))]))
                   (world_after small_faker small_parse 1
                      (JObject [(js "n", JString (js "{{faker.number.int}}"))]) 0%nat))).
Proof.
  destruct (generateMockData_array_mode small_faker small_parse
              (JObject [(js "n", JString (js "{{faker.number.int}}"))]) 2 0%nat)
    as (results & w' & Hgen & Hlen & _ & Hnth).
  exists results, w'. split; [exact Hgen|]. apply Hnth. lia.
Defined.


(** C5 on a pattern written without its leading slash and with a trailing
    one. *)
Lemma compose_normalizes_and_concatenates_witness :
  startsWith [SLASH; SLASH] (js "items/") = false /\
  compose None (js "items/") = spec_normalize (js "items/") /\
  spec_normalize (js "items/") = js "/items".
Proof.
  split; [reflexivity|]. split; [|reflexivity].
  destruct compose_normalizes_and_concatenates
    as (_ & _ & _ & _ & _ & _ & _ & H & _).
  apply H. reflexivity.
Defined.

(** C6 on the counting generator: a blank between the parentheses and no
    parentheses at all give the same call, the fifth one, which returns 4. *)
Lemma blank_parentheses_same_call_witness :
  template_match (js "{{faker.number.int( )}}")
    = Some (js "faker.number.int", Some (js " ")) /\
  trim (js " ") = [] /\
  getFakerFunction small_faker (js "faker.number.int") = Some counting /\
  processValue small_faker small_parse (JString (js "{{faker.number.int( )}}")) 4%nat
  = (JNumber 4, 5%nat) /\
  processValue small_faker small_parse (JString (js "{{faker.number.int}}")) 4%nat
  = (JNumber 4, 5%nat).
Proof.
  split; [reflexivity|]. split; [reflexivity|]. split; [reflexivity|].
  destruct (@blank_parentheses_same_call nat small_faker small_parse
              (js "{{faker.number.int( )}}") (js "faker.number.int") (js " ")
              counting 4%nat eq_refl eq_refl eq_refl) as (_ & H1 & H2).
  split; [exact H1 | exact H2].
Defined.

(** C10 on the leaf [{{name.first}}]. *)
Lemma non_faker_path_is_unknown_witness :
  template_match (js "{{name.first}}") = Some (js "name.first", None) /\
  hd [] (split DOT (js "name.first")) <> js "faker" /\
  processValue small_faker small_parse (JString (js "{{name.first}}")) 0%nat
  = (JString (js "Error: Unknown Faker Path (name.first)"), 0%nat).
Proof.
  assert (Hhd : hd [] (split DOT (js "name.first")) <> js "faker") by discriminate.
  split; [reflexivity|]. split; [exact Hhd|].
  exact (proj1 (@non_faker_path_is_unknown nat small_faker small_parse
                  (js "{{name.first}}") (js "name.first") None 0%nat eq_refl Hhd)).
Defined.

(** C8 on the structural matcher and the matcher with the captures
    erased: the same definition is found. *)
Lemma captured_params_are_dropped_witness :
  (forall pattern path,
     same_outcome (structural_match pattern path) (erased_match pattern path)) /\
  findMatchingMock acme_profiles acme_mocks upper_ascii structural_match
    (js "acme") (js "GET") [js "items"; js "7"]
  = findMatchingMock acme_profiles acme_mocks upper_ascii erased_match
      (js "acme") (js "GET") [js "items"; js "7"].
Proof.
  assert (H : forall pattern path,
             same_outcome (structural_match pattern path) (erased_match pattern path)).
  { intros pattern path. unfold erased_match.
    destruct (structural_match pattern path); simpl; auto. }
  split; [exact H|].
  exact (proj1 (@captured_params_are_dropped acme_profiles acme_mocks upper_ascii
                  structural_match erased_match nat small_faker small_parse
                  writes_json runtime_message
                  (js "acme") (js "GET") None [js "items"; js "7"] 0%nat H)).
Defined.

(** The claim C8 fails on the code: the requests for [/items/1] and
    [/items/2] match [/items/:id] with different captured values and get
    the same result, so no reading of the result of [findMatchingMock]
    gives the captured values back. *)
Lemma captured_params_not_surfaced :
  structural_match (fullPathTemplate items_by_id)
    (normalizedReqPath [js "items"; js "1"]) = Matched [(js "id", js "1")] /\
  structural_match (fullPathTemplate items_by_id)
    (normalizedReqPath [js "items"; js "2"]) = Matched [(js "id", js "2")] /\
  findMatchingMock acme_profiles acme_mocks upper_ascii structural_match
    (js "acme") (js "GET") [js "items"; js "1"]
  = findMatchingMock acme_profiles acme_mocks upper_ascii structural_match
      (js "acme") (js "GET") [js "items"; js "2"] /\
  ~ exists surface : Exc (option DbMockEndpoint) -> list (jsstring * jsstring),
      forall slug mock params,
        findMatchingMock acme_profiles acme_mocks upper_ascii structural_match
          (js "acme") (js "GET") slug = Ok (Some mock) ->
        structural_match (fullPathTemplate mock) (normalizedReqPath slug)
          = Matched params ->
        surface (findMatchingMock acme_profiles acme_mocks upper_ascii
                   structural_match (js "acme") (js "GET") slug) = params.
Proof.
  split; [reflexivity|]. split; [reflexivity|]. split; [reflexivity|].
  intros [surface H].
  pose proof (H [js "items"; js "1"] items_by_id [(js "id", js "1")]
                eq_refl eq_refl) as H1.
  pose proof (H [js "items"; js "2"] items_by_id [(js "id", js "2")]
                eq_refl eq_refl) as H2.
  change (findMatchingMock acme_profiles acme_mocks upper_ascii structural_match
            (js "acme") (js "GET") [js "items"; js "1"])
    with (Ok (Some items_by_id)) in H1.
  change (findMatchingMock acme_profiles acme_mocks upper_ascii structural_match
            (js "acme") (js "GET") [js "items"; js "2"])
    with (Ok (Some items_by_id)) in H2.
  rewrite H1 in H2. discriminate H2.
Qed.

(** C9 on the stored pattern [/items/:], which the matcher rejects with
    an error, and on the route [/items] stored with the status 204, with
    which no response that has a body is built. *)
Lemma thrown_error_gives_500_with_details_witness :
  findMatchingMock acme_profiles (rows_for [items_unnamed]) upper_ascii
    rejecting_match (js "acme") (js "GET") [js "items"; js "7"]
  = Raise (js "Missing parameter name at 7") /\
  status (fst (handleRequest acme_profiles (rows_for [items_unnamed]) upper_ascii
                 rejecting_match small_faker small_parse
                 writes_json runtime_message (js "GET") None
                 (js "acme") (Some [js "items"; js "7"]) 0%nat)) = 500%Z /\
  findMatchingMock acme_profiles (rows_for [items_no_content]) upper_ascii
    structural_match (js "acme") (js "GET") [js "items"]
  = Ok (Some items_no_content) /\
  response_init_error (status_code items_no_content) = Some NullBodyStatus /\
  fst (handleRequest acme_profiles (rows_for [items_no_content]) upper_ascii
         structural_match small_faker small_parse
         writes_json runtime_message (js "GET") None
         (js "acme") (Some [js "items"]) 0%nat)
  = {| body := JObject [(js "error", JString (js "Internal Server Error"));
                         (js "details",
                          JString (runtime_message NullBodyStatus 204))];
       status := 500;
       headers := getCorsHeaders None |}.
Proof.
  split; [reflexivity|]. split.
  { rewrite (proj1 (@thrown_error_gives_500_with_details acme_profiles
                      (rows_for [items_unnamed]) upper_ascii rejecting_match
                      nat small_faker small_parse writes_json runtime_message
                      (js "acme") (js "GET") None
                      (Some [js "items"; js "7"]) 0%nat)
               (js "Missing parameter name at 7") eq_refl).
    reflexivity. }
  split; [reflexivity|]. split; [reflexivity|].
  rewrite (proj1 (proj2 (proj2
             (@thrown_error_gives_500_with_details acme_profiles
                (rows_for [items_no_content]) upper_ascii structural_match
                nat small_faker small_parse writes_json runtime_message
                (js "acme") (js "GET") None (Some [js "items"]) 0%nat)))
             items_no_content (JObject [(js "n", JNumber 5)]) 0%nat
             NullBodyStatus eq_refl eq_refl eq_refl eq_refl).
  reflexivity.
Defined.

(** The claim C9 fails on the code: the body of the 500 response holds the
    message of the error that was thrown, and an error reported by the
    store is answered with 404, not 500. *)
Lemma internal_error_exposes_message :
  fst (handleRequest acme_profiles (rows_for [items_unnamed]) upper_ascii
         rejecting_match small_faker small_parse
         writes_json runtime_message (js "GET") None
         (js "acme") (Some [js "items"; js "7"]) 0%nat)
  = {| body := JObject [(js "error", JString (js "Internal Server Error"));
                         (js "details", JString (js "Missing parameter name at 7"))];
       status := 500;
       headers := getCorsHeaders None |} /\
  acme_profiles (js "nobody") = Ok {| data := None; error := Some (js "PGRST116") |} /\
  status (fst (handleRequest acme_profiles acme_mocks upper_ascii structural_match
                 small_faker small_parse
                 writes_json runtime_message (js "GET") None
                 (js "nobody") (Some [js "items"; js "7"]) 0%nat)) = 404%Z.
Proof.
  repeat split; reflexivity.
Qed.

(** * More of the generator and of the routes *)

(** ** The shape of an expansion *)

Definition not_proto (k : jsstring) : bool := negb (str_eqb k PROTO).

Lemma distinct_remove (a b : list jsstring) (k : jsstring) :
  distinct (a ++ k :: b) = true -> distinct (a ++ b) = true.
Proof.
  induction a as [|x a IH]; cbn [app distinct]; intros H.
  - apply andb_true_iff in H. tauto.
  - apply andb_true_iff in H as [Hx Ha]. rewrite (IH Ha), andb_true_r.
    rewrite existsb_app in *. cbn [existsb] in Hx.
    destruct (existsb (str_eqb x) a); [discriminate|].
    destruct (existsb (str_eqb x) b); [|reflexivity].
    now rewrite !orb_true_r in Hx.
Qed.

Lemma replace_prop_keys (k : jsstring) (v : JsonValue)
    (o : list (jsstring * JsonValue)) :
  keys (replace_prop k v o) = keys o.
Proof.
  unfold keys. induction o as [|[k' v'] o IH]; [reflexivity|].
  cbn [replace_prop]. destruct (str_eqb k k'); cbn [map fst]; [reflexivity|].
  now rewrite IH.
Qed.

Lemma obj_set_keys_new (acc : list (jsstring * JsonValue)) (k : jsstring)
    (v : JsonValue) :
  str_eqb k PROTO = false -> has_key k acc = false ->
  keys (obj_set acc k v) = keys acc ++ [k].
Proof.
  intros Hp Hk. unfold obj_set. rewrite Hp, Hk. unfold keys. now rewrite map_app.
Qed.

Lemma obj_set_no_proto (acc : list (jsstring * JsonValue)) (k : jsstring)
    (v : JsonValue) :
  has_key PROTO acc = false -> has_key PROTO (obj_set acc k v) = false.
Proof.
  intros H. unfold obj_set. destruct (str_eqb k PROTO) eqn:Hp; [exact H|].
  destruct (has_key k acc).
  - unfold has_key in *. now rewrite replace_prop_keys.
  - unfold has_key, keys in *. rewrite map_app, existsb_app, H.
    cbn [map fst existsb]. now rewrite str_eqb_sym, Hp.
Qed.

Lemma replace_prop_assoc_same (k : jsstring) (v : JsonValue)
    (o : list (jsstring * JsonValue)) :
  has_key k o = true -> assoc k (replace_prop k v o) = Some v.
Proof.
  unfold has_key, keys. induction o as [|[k' v'] o IH]; [discriminate|].
  cbn [map fst existsb replace_prop]. destruct (str_eqb k k') eqn:E.
  - intros _. cbn [assoc]. now rewrite E.
  - cbn [orb assoc]. rewrite E. exact IH.
Qed.

Lemma replace_prop_assoc_other (k k' : jsstring) (v : JsonValue)
    (o : list (jsstring * JsonValue)) :
  str_eqb k k' = false -> assoc k (replace_prop k' v o) = assoc k o.
Proof.
  intros H. induction o as [|[k0 v0] o IH]; [reflexivity|].
  cbn [replace_prop]. destruct (str_eqb k' k0) eqn:E.
  - apply str_eqb_eq in E. subst k0. cbn [assoc]. now rewrite H.
  - cbn [assoc]. now rewrite IH.
Qed.

Lemma assoc_app_new (k : jsstring) (v : JsonValue)
    (o : list (jsstring * JsonValue)) :
  has_key k o = false -> assoc k (o ++ [(k, v)]) = Some v.
Proof.
  unfold has_key, keys. induction o as [|[k' v'] o IH]; cbn [map fst existsb app assoc].
  - intros _. now rewrite str_eqb_refl.
  - intros H. apply orb_false_iff in H as [E Ho]. rewrite E. now apply IH.
Qed.

Lemma assoc_app_other (k k' : jsstring) (v : JsonValue)
    (o : list (jsstring * JsonValue)) :
  str_eqb k k' = false -> assoc k (o ++ [(k', v)]) = assoc k o.
Proof.
  intros H. induction o as [|[k0 v0] o IH]; cbn [app assoc].
  - now rewrite H.
  - now rewrite IH.
Qed.

(** The assignment [newObj[k] = v] with a key other than [__proto__] leaves
    [v] under [k], and leaves every other key as it was. *)
Lemma obj_set_assoc_same (acc : list (jsstring * JsonValue)) (k : jsstring)
    (v : JsonValue) :
  str_eqb k PROTO = false -> assoc k (obj_set acc k v) = Some v.
Proof.
  intros Hp. unfold obj_set. rewrite Hp. destruct (has_key k acc) eqn:Hk.
  - now apply replace_prop_assoc_same.
  - now apply assoc_app_new.
Qed.

Lemma obj_set_assoc_other (acc : list (jsstring * JsonValue)) (k k' : jsstring)
    (v : JsonValue) :
  str_eqb k k' = false -> assoc k (obj_set acc k' v) = assoc k acc.
Proof.
  intros H. unfold obj_set. destruct (str_eqb k' PROTO); [reflexivity|].
  destruct (has_key k' acc).
  - now apply replace_prop_assoc_other.
  - now apply assoc_app_other.
Qed.

Section ExpansionShape.

Variable World : Type.
Variable walk : JsonValue -> World -> JsonValue * World.

Lemma process_items_length (l : list JsonValue) (w : World) :
  length (fst (process_items walk l w)) = length l.
Proof.
  revert w. induction l as [|x l IH]; intros w; [reflexivity|].
  cbn [process_items]. destruct (walk x w) as [x' w1].
  specialize (IH w1). destruct (process_items walk l w1) as [r w2].
  cbn [fst length] in *. now rewrite IH.
Qed.

Lemma process_items_nth (l : list JsonValue) (w : World) (i : nat)
    (item : JsonValue) :
  nth_error l i = Some item ->
  nth_error (fst (process_items walk l w)) i
  = Some (fst (walk item (snd (process_items walk (firstn i l) w)))).
Proof.
  revert w i. induction l as [|x l IH]; intros w i H.
  - destruct i; discriminate.
  - destruct i as [|i]; cbn [nth_error firstn process_items] in *.
    + inversion H; subst. cbn [snd]. destruct (walk item w) as [x' w1].
      now destruct (process_items walk l w1).
    + destruct (walk x w) as [x' w1]. specialize (IH w1 i H).
      destruct (process_items walk l w1) as [r w2].
      destruct (process_items walk (firstn i l) w1) as [r' w3].
      cbn [fst snd nth_error] in *. exact IH.
Qed.

Lemma process_props_no_proto (props acc : list (jsstring * JsonValue)) (w : World) :
  has_key PROTO acc = false ->
  has_key PROTO (fst (process_props walk props acc w)) = false.
Proof.
  revert acc w. induction props as [|[k v] props IH]; intros acc w H; [exact H|].
  cbn [process_props]. destruct (walk v w) as [v' w1].
  apply IH. now apply obj_set_no_proto.
Qed.

Lemma process_props_keys (props acc : list (jsstring * JsonValue)) (w : World) :
  distinct (keys acc ++ keys props) = true ->
  keys (fst (process_props walk props acc w))
  = keys acc ++ filter not_proto (keys props).
Proof.
  revert acc w. induction props as [|[k v] props IH]; intros acc w H.
  - cbn. now rewrite app_nil_r.
  - cbn [process_props]. destruct (walk v w) as [v' w1].
    unfold keys in H. cbn [map fst] in H. fold (keys acc) (keys props) in H.
    change (keys ((k, v) :: props)) with (k :: keys props).
    cbn [filter]. unfold not_proto at 1.
    destruct (str_eqb k PROTO) eqn:Hp; cbn [negb].
    + unfold obj_set. rewrite Hp. apply IH. now apply distinct_remove in H.
    + rewrite IH.
      * rewrite obj_set_keys_new; [now rewrite <- app_assoc | exact Hp |].
        exact (distinct_app_cons _ _ _ H).
      * rewrite obj_set_keys_new; [now rewrite <- app_assoc | exact Hp |].
        exact (distinct_app_cons _ _ _ H).
Qed.

Lemma process_items_world (l : list JsonValue) (w : World) :
  Forall (fun v => forall w, snd (walk v w) = w) l ->
  snd (process_items walk l w) = w.
Proof.
  intros H. revert w. induction H as [|x l Hx _ IH]; intros w; [reflexivity|].
  cbn [process_items]. specialize (Hx w). destruct (walk x w) as [x' w1].
  cbn [snd] in Hx. subst w1. specialize (IH w).
  now destruct (process_items walk l w).
Qed.

Lemma process_props_world (props acc : list (jsstring * JsonValue)) (w : World) :
  Forall (fun kv => forall w, snd (walk (snd kv) w) = w) props ->
  snd (process_props walk props acc w) = w.
Proof.
  intros H. revert acc w. induction H as [|[k v] l Hv _ IH]; intros acc w; [reflexivity|].
  cbn [process_props]. specialize (Hv w). cbn [snd] in Hv.
  destruct (walk v w) as [v' w1]. cbn [snd] in Hv. subst w1. apply IH.
Qed.

(** A key that does not come in the properties still to be walked keeps
    the value the new object has under it. *)
Lemma process_props_assoc_later (k : jsstring)
    (props acc : list (jsstring * JsonValue)) (w : World) :
  has_key k props = false ->
  assoc k (fst (process_props walk props acc w)) = assoc k acc.
Proof.
  unfold has_key, keys. revert acc w.
  induction props as [|[k' v] props IH]; intros acc w H; [reflexivity|].
  cbn [map fst existsb] in H. apply orb_false_iff in H as [E Hr].
  cbn [process_props]. destruct (walk v w) as [v' w1].
  rewrite (IH _ _ Hr). now apply obj_set_assoc_other.
Qed.

(** The world the loop over the properties leaves does not depend on the
    object it fills. *)
Lemma process_props_world_acc (props acc acc' : list (jsstring * JsonValue))
    (w : World) :
  snd (process_props walk props acc w) = snd (process_props walk props acc' w).
Proof.
  revert acc acc' w. induction props as [|[k v] props IH]; intros acc acc' w;
    [reflexivity|].
  cbn [process_props]. destruct (walk v w) as [v' w1]. apply IH.
Qed.

End ExpansionShape.

Lemma line_terminator_is_no_dot_char (a : jsstring) :
  existsb is_line_terminator a = true -> forallb is_dot_char a = false.
Proof.
  induction a as [|c a IH]; cbn [existsb forallb]; [discriminate|].
  unfold is_dot_char at 1. destruct (is_line_terminator c); [reflexivity|].
  cbn [orb negb andb]. exact IH.
Qed.

(** [s] holds the code unit [d]. *)
Definition has_char (d : N) (s : jsstring) : bool :=
  existsb (fun c => N.eqb c d) s.

Lemma split_without_separator (d : N) (p : jsstring) :
  has_char d p = false -> split d p = [p].
Proof.
  induction p as [|c p IH]; [reflexivity|]. cbn [has_char existsb split].
  intros H. apply orb_false_iff in H as [Hc Hp]. now rewrite Hc, (IH Hp).
Qed.

Lemma split_at_separator (d : N) (p s : jsstring) :
  has_char d p = false -> split d (p ++ d :: s) = p :: split d s.
Proof.
  induction p as [|c p IH]; cbn [has_char existsb split app]; intros H.
  - now rewrite N.eqb_refl.
  - apply orb_false_iff in H as [Hc Hp]. now rewrite Hc, (IH Hp).
Qed.

(** Cutting at the separator gives back the parts that were joined with it. *)
Lemma split_join (d : N) (parts : list jsstring) :
  parts <> [] -> Forall (fun p => has_char d p = false) parts ->
  split d (join [d] parts) = parts.
Proof.
  intros Hne H. induction H as [|p rest Hp Hrest IH]; [contradiction|].
  destruct rest as [|q rest].
  - cbn [join]. now apply split_without_separator.
  - change (join [d] (p :: q :: rest)) with (p ++ d :: join [d] (q :: rest)).
    rewrite split_at_separator by exact Hp. rewrite IH; [reflexivity | discriminate].
Qed.

Definition is_object_node (World : Type) (node : FakerNode World) : bool :=
  match node with
  | FObject _ => true
  | _ => false
  end.

Section GeneratorMore.

Variable World : Type.
Variable faker : FakerNode World.
Variable JSON_parse : jsstring -> option JsonValue.

Local Abbreviation processValue := (processValue faker JSON_parse).
Local Abbreviation expandTemplate := (expandTemplate faker JSON_parse).
Local Abbreviation generateMockData := (generateMockData faker JSON_parse).
Local Abbreviation generate_items := (generate_items faker JSON_parse).
Local Abbreviation getFakerFunction := (getFakerFunction faker).

(** X1: the expansion of an array, with or without generator calls in it,
    is an array of the same length, and the element at each index is the
    expansion of the item at that index, in the world the items before it
    have left. *)
Theorem array_expansion_keeps_shape (items : list JsonValue) (w : World) :
  exists items' w',
    processValue (JArray items) w = (JArray items', w') /\
    length items' = length items /\
    forall i item, nth_error items i = Some item ->
      nth_error items' i
      = Some (fst (processValue item
                     (snd (process_items processValue (firstn i items) w)))).
Proof.
  rewrite processValue_array.
  pose proof (process_items_length processValue items w) as Hlen.
  pose proof (fun i item => @process_items_nth World processValue items w i item) as Hnth.
  destruct (process_items processValue items w) as [items' w'].
  cbn [fst] in *. exists items', w'. auto.
Qed.

(** X2: the expansion of an object never has an own key [__proto__], and
    when the keys of the object are pairwise distinct its keys are those
    of the object other than [__proto__], in the same order. *)
Theorem object_expansion_keeps_keys (props : list (jsstring * JsonValue))
    (w : World) :
  exists newObj w',
    processValue (JObject props) w = (JObject newObj, w') /\
    has_key PROTO newObj = false /\
    (distinct (keys props) = true ->
     keys newObj = filter not_proto (keys props)).
Proof.
  rewrite processValue_object.
  pose proof (@process_props_no_proto World processValue props [] w eq_refl) as Hp.
  pose proof (@process_props_keys World processValue props [] w) as Hk.
  destruct (process_props processValue props [] w) as [newObj w'].
  cbn [fst] in *. exists newObj, w'. auto.
Qed.

(** X3: walking a value that holds no generator-call string calls no
    generator: the world is left as it was. *)
Theorem no_template_no_generator_call (v : JsonValue) (w : World) :
  has_template v = false -> snd (processValue v w) = w.
Proof.
  revert w. induction v using JsonValue_ind; intros w Ht; try reflexivity.
  - rewrite processValue_string. cbn [has_template] in Ht.
    destruct (template_match s) as [[p a]|]; [discriminate | reflexivity].
  - rewrite processValue_array.
    pose proof (@process_items_world World processValue items w) as Hw.
    destruct (process_items processValue items w) as [items' w'].
    cbn [snd] in *. apply Hw.
    cbn [has_template] in Ht. rewrite Forall_forall in *. intros x Hx w0.
    apply H; [exact Hx|].
    destruct (has_template x) eqn:E; [|reflexivity].
    assert (existsb has_template items = true) by (apply existsb_exists; eauto).
    congruence.
  - rewrite processValue_object.
    pose proof (@process_props_world World processValue props [] w) as Hw.
    destruct (process_props processValue props [] w) as [newObj w'].
    cbn [snd] in *. apply Hw.
    cbn [has_template] in Ht. rewrite Forall_forall in *. intros kv Hkv w0.
    apply H; [exact Hkv|].
    destruct (has_template (snd kv)) eqn:E; [|reflexivity].
    assert (existsb (fun kv => has_template (snd kv)) props = true)
      by (apply existsb_exists; eauto).
    congruence.
Qed.

Lemma generate_items_fixed (n : nat) (structure : JsonValue) (w : World) :
  has_template structure = false -> ordinary_keys structure = true ->
  generate_items n structure w = (repeat structure n, w).
Proof.
  intros Ht Hk. induction n as [|n IH]; [reflexivity|].
  cbn [generate_items repeat].
  rewrite deepCopy_id, (@processValue_fixed World faker JSON_parse structure Ht Hk w).
  now rewrite IH.
Qed.

(** X5: in array mode a template that holds no generator-call string and
    no key [__proto__] is answered with [max(1, arrayCount)] copies of
    itself, and no generator is called. *)
Theorem array_mode_of_plain_template (structure : JsonValue) (arrayCount : Z)
    (w : World) :
  has_template structure = false -> ordinary_keys structure = true ->
  generateMockData structure true arrayCount w
  = (JArray (repeat structure (Z.to_nat (Z.max 1 arrayCount))), w).
Proof.
  intros Ht Hk. unfold generateMockData. now rewrite generate_items_fixed.
Qed.

(** X6: in array mode a count of one or less (zero and negative counts
    included) gives the array whose single element is what the non-array
    mode returns, and leaves the same world. *)
Theorem array_mode_count_at_most_one (structure : JsonValue) (arrayCount : Z)
    (w : World) :
  (arrayCount <= 1)%Z ->
  generateMockData structure true arrayCount w
  = (JArray [fst (generateMockData structure false arrayCount w)],
     snd (generateMockData structure false arrayCount w)).
Proof.
  intros H. unfold generateMockData.
  replace (Z.max 1 arrayCount) with 1%Z by lia.
  change (Z.to_nat 1) with 1%nat. cbn [generate_items].
  now destruct (processValue (deepCopy structure) w).
Qed.

(** X7: argument text that holds a line terminator, such as JSON written on
    several lines, makes the leaf no template: the string is returned as
    it is and no generator is called. *)
Theorem multiline_arguments_pass_through (fakerPath a : jsstring) (w : World) :
  forallb is_path_char fakerPath = true ->
  existsb is_line_terminator a = true ->
  processValue
    (JString ([LBRACE; LBRACE] ++ fakerPath ++ [LPAREN] ++ a
              ++ [RPAREN; RBRACE; RBRACE])) w
  = (JString ([LBRACE; LBRACE] ++ fakerPath ++ [LPAREN] ++ a
              ++ [RPAREN; RBRACE; RBRACE]), w).
Proof.
  intros Hp Ha. rewrite processValue_string.
  replace (template_match ([LBRACE; LBRACE] ++ fakerPath ++ [LPAREN] ++ a
                           ++ [RPAREN; RBRACE; RBRACE])) with
    (@None (jsstring * option jsstring)); [reflexivity|].
  symmetry. unfold template_match. cbn [app startsWith skipn].
  rewrite !N.eqb_refl. cbn [andb].
  rewrite span_app by (auto; reflexivity).
  destruct fakerPath as [|c p]; [reflexivity|].
  cbn [str_eqb]. change (N.eqb LPAREN RBRACE) with false. cbn [andb].
  cbn [startsWith skipn]. rewrite N.eqb_refl. cbn [andb].
  replace (endsWith [RPAREN; RBRACE; RBRACE] (a ++ [RPAREN; RBRACE; RBRACE]))
    with true by (symmetry; apply endsWith_spec; now exists a).
  replace (length (LPAREN :: a ++ [RPAREN; RBRACE; RBRACE]) - 4)%nat
    with (length a + 0)%nat by (simpl; rewrite length_app; simpl; lia).
  rewrite firstn_app_2. cbn [firstn]. rewrite app_nil_r.
  now rewrite line_terminator_is_no_dot_char.
Qed.

(** X8: a template that names a generator and carries argument text that
    is not blank and parses as JSON calls the generator with the parsed
    value as its single argument; what the generator returns takes the
    place of the leaf. *)
Theorem template_with_arguments_calls_generator (fakerPath a : jsstring)
    (v result : JsonValue) (fakerFunc : FakerFunction World) (w w' : World) :
  fakerPath <> [] ->
  forallb is_path_char fakerPath = true ->
  forallb is_dot_char a = true ->
  trim a <> [] ->
  JSON_parse a = Some v ->
  getFakerFunction fakerPath = Some fakerFunc ->
  fakerFunc (Some v) w = (Returns result, w') ->
  processValue
    (JString ([LBRACE; LBRACE] ++ fakerPath ++ [LPAREN] ++ a
              ++ [RPAREN; RBRACE; RBRACE])) w
  = (result, w').
Proof.
  intros Hne Hp Ha Ht Hparse Hf Hcall.
  rewrite processValue_string.
  rewrite (@template_match_complete _ fakerPath (Some a))
    by (repeat split; auto).
  unfold expandTemplate, invoke. apply str_eqb_neq in Ht.
  now rewrite Hf, Ht, Hparse, Hcall.
Qed.

Lemma descend_app (obj : FakerNode World) (a b : list jsstring) :
  descend obj (a ++ b)
  = match descend obj a with
    | Some o => descend o b
    | None => None
    end.
Proof.
  revert obj. induction a as [|k a IH]; intros obj; [reflexivity|].
  cbn [app descend]. destruct obj as [f|members|]; try reflexivity.
  destruct (assoc k members); [apply IH | reflexivity].
Qed.

(** X9: a dotted path that goes on after a segment at which the registry
    holds a function, or any value that is not an object, is not found:
    nothing is resolved to a part of a path. *)
Theorem path_through_a_leaf_is_unknown (path : jsstring)
    (pre rest : list jsstring) (part : jsstring) (node : FakerNode World) :
  split DOT path = js "faker" :: pre ++ part :: rest ->
  descend faker pre = Some node ->
  is_object_node node = false ->
  getFakerFunction path = None.
Proof.
  intros Hs Hd Hn. unfold getFakerFunction. rewrite Hs.
  rewrite str_eqb_refl. cbn [negb]. rewrite descend_app, Hd.
  destruct node; [reflexivity | discriminate | reflexivity].
Qed.

(** X10: for segments that hold no dot, the path [faker.s1. ... .sn]
    resolves to the function found by going down the registry through
    [s1], ..., [sn], and to nothing when that walk ends anywhere else. *)
Theorem dotted_path_resolves_by_descent (segments : list jsstring) :
  Forall (fun p => has_char DOT p = false) segments ->
  getFakerFunction (join [DOT] (js "faker" :: segments))
  = match descend faker segments with
    | Some (FFunction f) => Some f
    | _ => None
    end.
Proof.
  intros H. unfold getFakerFunction.
  rewrite split_join; [|discriminate|].
  - now rewrite str_eqb_refl.
  - constructor; [reflexivity | exact H].
Qed.

(** X22: a failed leaf is replaced where it stands.  The leaf expands to
    the marker, which contains the dotted path.  In an array the marker is
    the item at the index of the leaf, between the expansions of the items
    before it and of the items after it, which are walked from the world
    the failed leaf has left.  In an object, under a key other than
    [__proto__] that does not come again after it, the value under the key
    is the marker, and the properties after it are walked from the world
    the failed leaf has left.  The whole expansion is the one of the
    template in which the leaves with an unknown path or with unparsable
    arguments were plain marker strings from the start. *)
Theorem failed_leaf_is_replaced_in_place (s fakerPath : jsstring)
    (args : option jsstring) (w w' : World) (marker : jsstring) :
  template_match s = Some (fakerPath, args) ->
  LeafFailure faker JSON_parse fakerPath args w marker w' ->
  processValue (JString s) w = (JString marker, w') /\
  contains fakerPath marker /\
  (forall before after w0,
     snd (process_items processValue before w0) = w ->
     processValue (JArray (before ++ JString s :: after)) w0
     = (JArray (fst (process_items processValue before w0)
                ++ JString marker
                :: fst (process_items processValue after w')),
        snd (process_items processValue after w'))) /\
  (forall before key after w0,
     snd (process_props processValue before [] w0) = w ->
     str_eqb key PROTO = false ->
     has_key key after = false ->
     exists newObj,
       processValue (JObject (before ++ (key, JString s) :: after)) w0
       = (JObject newObj, snd (process_props processValue after [] w')) /\
       assoc key newObj = Some (JString marker)) /\
  (forall template w0,
     processValue (with_markers faker JSON_parse template) w0
     = processValue template w0).
Proof.
  intros Hm Hfail.
  assert (Hleaf : processValue (JString s) w = (JString marker, w')).
  { rewrite processValue_string, Hm. now apply expandTemplate_failure. }
  split; [exact Hleaf|]. split.
  { destruct Hfail; auto using unknown_path_marker_contains,
      faker_error_marker_contains. }
  split; [|split; [|apply processValue_with_markers]].
  - intros before after w0 Hb.
    destruct (process_items processValue before w0) as [done wb] eqn:E.
    cbn [fst snd] in *. subst wb.
    rewrite processValue_array,
      (@process_items_app World faker JSON_parse before after (JString s) w0 w done E),
      Hleaf.
    now destruct (process_items processValue after w').
  - intros before key after w0 Hb Hp Hk.
    destruct (process_props processValue before [] w0) as [acc wb] eqn:E.
    cbn [snd] in Hb. subst wb.
    rewrite processValue_object,
      (@process_props_app World faker JSON_parse before after key (JString s)
         w0 w [] acc E), Hleaf.
    pose proof (@process_props_assoc_later World processValue key after
                  (obj_set acc key (JString marker)) w' Hk) as Ha.
    pose proof (@process_props_world_acc World processValue after
                  (obj_set acc key (JString marker)) [] w') as Hw.
    destruct (process_props processValue after
                (obj_set acc key (JString marker)) w') as [newObj w2].
    cbn [fst snd] in *. exists newObj. split; [now rewrite Hw|].
    rewrite Ha. now apply obj_set_assoc_same.
Qed.

End GeneratorMore.

(** ** Paths: what the create and update routes store, what the public
    route matches *)

(** The normalization of [path_template] in the routes that create and
    update a mock, applied to the parsed body before it is stored. *)
Definition normalizePathTemplate (path_template : jsstring) : jsstring :=
  let p := if negb (startsWith [SLASH] path_template)
           then SLASH :: path_template else path_template in
  if (1 <? length p)%nat && endsWith [SLASH] p then slice_0_m1 p else p.

Lemma normalizePathTemplate_eq (p : jsstring) :
  normalizePathTemplate p = stripTrailingSlash (ensureLeadingSlash p).
Proof.
  unfold normalizePathTemplate, stripTrailingSlash, ensureLeadingSlash.
  now destruct (startsWith [SLASH] p).
Qed.

Lemma stripTrailingSlash_cons (r : jsstring) :
  exists r', stripTrailingSlash (SLASH :: r) = SLASH :: r'.
Proof.
  unfold stripTrailingSlash, slice_0_m1. destruct r as [|c r]; [now exists []|].
  destruct ((1 <? length (SLASH :: c :: r))%nat && endsWith [SLASH] (SLASH :: c :: r)).
  - now exists (removelast (c :: r)).
  - now exists (c :: r).
Qed.

Lemma stripTrailingSlash_fixed (q : jsstring) :
  q = [SLASH] \/ endsWith [SLASH] q = false -> stripTrailingSlash q = q.
Proof.
  unfold stripTrailingSlash. intros [-> | H]; [reflexivity|].
  now rewrite H, andb_false_r.
Qed.

Lemma ensureLeadingSlash_fixed (q : jsstring) :
  startsWith [SLASH] q = true -> ensureLeadingSlash q = q.
Proof. unfold ensureLeadingSlash. now intros ->. Qed.

Lemma endsWith_removelast (q : jsstring) :
  endsWith [SLASH] q = true -> endsWith [SLASH] (removelast q) = true ->
  endsWith [SLASH; SLASH] q = true.
Proof.
  intros H1 H2. apply endsWith_spec in H1 as [x ->].
  rewrite removelast_last in H2. apply endsWith_spec in H2 as [y ->].
  apply endsWith_spec. exists y. now rewrite <- app_assoc.
Qed.

Lemma ensureLeadingSlash_no_double_end (p : jsstring) :
  endsWith [SLASH; SLASH] p = false ->
  endsWith [SLASH; SLASH] (ensureLeadingSlash p) = false.
Proof.
  intros H. unfold ensureLeadingSlash.
  destruct (startsWith [SLASH] p) eqn:Hs; [exact H|].
  destruct (endsWith [SLASH; SLASH] (SLASH :: p)) eqn:E; [|reflexivity].
  apply endsWith_spec in E as [x Hx]. destruct x as [|c x]; cbn [app] in Hx.
  - inversion Hx; subst. discriminate Hs.
  - inversion Hx; subst.
    assert (endsWith [SLASH; SLASH] (x ++ [SLASH; SLASH]) = true)
      by (apply endsWith_spec; now exists x).
    congruence.
Qed.

(** X12: a path that does not end with two slashes is stored, by the
    routes that create and update a mock, with a leading slash and without
    a trailing one (unless it is the root); normalizing it again, as the
    update route and the public route do, changes nothing, so the pattern a
    mock outside any project is matched under is the stored path itself. *)
Theorem stored_path_is_stable (p : jsstring) :
  endsWith [SLASH; SLASH] p = false ->
  startsWith [SLASH] (normalizePathTemplate p) = true /\
  (normalizePathTemplate p = [SLASH]
   \/ endsWith [SLASH] (normalizePathTemplate p) = false) /\
  normalizePathTemplate (normalizePathTemplate p) = normalizePathTemplate p /\
  compose None (normalizePathTemplate p) = normalizePathTemplate p.
Proof.
  intros H. apply ensureLeadingSlash_no_double_end in H.
  assert (Hshape : startsWith [SLASH] (normalizePathTemplate p) = true /\
                   (normalizePathTemplate p = [SLASH]
                    \/ endsWith [SLASH] (normalizePathTemplate p) = false)).
  { rewrite normalizePathTemplate_eq.
    destruct (ensureLeadingSlash_cons p) as [r Hr]. rewrite Hr in *.
    unfold stripTrailingSlash, slice_0_m1.
    destruct r as [|c r]; [split; [reflexivity | now left]|].
    change ((1 <? length (SLASH :: c :: r))%nat) with true. cbn [andb].
    destruct (endsWith [SLASH] (SLASH :: c :: r)) eqn:He.
    - split; [reflexivity|]. right.
      destruct (endsWith [SLASH] (removelast (SLASH :: c :: r))) eqn:E; [|reflexivity].
      rewrite (endsWith_removelast _ He E) in H. discriminate.
    - split; [reflexivity | now right]. }
  destruct Hshape as [Hs He]. split; [exact Hs|]. split; [exact He|].
  assert (Hfix : stripTrailingSlash (ensureLeadingSlash (normalizePathTemplate p))
                 = normalizePathTemplate p)
    by (now rewrite ensureLeadingSlash_fixed, stripTrailingSlash_fixed).
  split; [now rewrite normalizePathTemplate_eq at 1 | exact Hfix].
Qed.

Lemma split_cons (d : N) (s : jsstring) :
  exists seg segs, split d s = seg :: segs.
Proof.
  induction s as [|c s (seg & segs & IH)]; [now exists [], []|].
  cbn [split]. destruct (N.eqb c d); [now eexists; eexists|].
  rewrite IH. now eexists; eexists.
Qed.

Lemma split_snoc_separator (d : N) (x : jsstring) :
  split d (x ++ [d]) = split d x ++ [[]].
Proof.
  induction x as [|c x IH]; cbn [app split].
  - now rewrite N.eqb_refl.
  - destruct (N.eqb c d); [now rewrite IH|].
    rewrite IH. destruct (split_cons d x) as (seg & segs & ->). reflexivity.
Qed.

(** X11: the path built from the segments of a request always starts with
    a slash (the fallback for an empty string is never taken), and for
    segments that are not empty and hold no slash it is cut back, at the
    slashes, into the empty segment before the first slash followed by the
    same segments. *)
Theorem request_path_keeps_segments :
  (forall parts, exists r,
      normalizedReqPath parts = SLASH :: r /\
      normalizedReqPath parts = stripTrailingSlash (SLASH :: join [SLASH] parts)) /\
  (forall parts,
      parts <> [] ->
      Forall (fun p => p <> [] /\ has_char SLASH p = false) parts ->
      normalizedReqPath parts = SLASH :: join [SLASH] parts /\
      split SLASH (normalizedReqPath parts) = [] :: parts).
Proof.
  split.
  - intros parts. unfold normalizedReqPath. cbv zeta.
    destruct (stripTrailingSlash_cons (join [SLASH] parts)) as [r ->]. now exists r.
  - intros parts Hne H.
    assert (Hfree : Forall (fun p => has_char SLASH p = false) parts)
      by (eapply Forall_impl; [|exact H]; cbn; tauto).
    assert (Hsplit : split SLASH (SLASH :: join [SLASH] parts) = [] :: parts).
    { change (SLASH :: join [SLASH] parts) with ([] ++ SLASH :: join [SLASH] parts).
      rewrite split_at_separator by reflexivity. now rewrite split_join. }
    assert (Hend : endsWith [SLASH] (SLASH :: join [SLASH] parts) = false).
    { destruct (endsWith [SLASH] (SLASH :: join [SLASH] parts)) eqn:E; [|reflexivity].
      exfalso. apply endsWith_spec in E as [x Hx].
      rewrite Hx, split_snoc_separator in Hsplit.
      destruct (exists_last Hne) as (front & lastp & ->).
      change ([] :: front ++ [lastp]) with (([] :: front) ++ [lastp]) in Hsplit.
      apply app_inj_tail in Hsplit as [_ Hl].
      rewrite Forall_forall in H. destruct (H lastp) as [Hn _].
      { apply in_or_app. right. now left. }
      now apply Hn. }
    assert (Hn : normalizedReqPath parts = SLASH :: join [SLASH] parts).
    { unfold normalizedReqPath. cbv zeta.
      now rewrite stripTrailingSlash_fixed by (now right). }
    split; [exact Hn | now rewrite Hn].
Qed.

(** X13: the canonical pattern of a mock always starts with a slash; for a
    mock outside any project, in a project whose base path is null, or in
    one whose base path is the empty string, it is the normalized path
    template alone. *)
Theorem canonical_pattern_starts_with_slash (mock : DbMockEndpoint) :
  (exists r, fullPathTemplate mock = SLASH :: r) /\
  (projects mock = None \/ projects mock = Some None
   \/ projects mock = Some (Some []) ->
   fullPathTemplate mock
   = stripTrailingSlash (ensureLeadingSlash (path_template mock))).
Proof.
  unfold fullPathTemplate, projectBasePath. split.
  - destruct (ensureLeadingSlash_cons (path_template mock)) as [rp Hp].
    destruct (stripTrailingSlash_cons rp) as [rp' Hp'].
    destruct (projects mock) as [[[|c b]|]|]; unfold compose; cbv zeta;
      rewrite ?Hp, ?Hp'; eauto.
    destruct (ensureLeadingSlash_cons (c :: b)) as [rb Hb].
    destruct (stripTrailingSlash_cons rb) as [rb' Hb'].
    rewrite Hb, Hb'. destruct (str_eqb (SLASH :: rp') [SLASH]); eauto.
    cbn [app]. eauto.
  - intros [-> | [-> | ->]]; reflexivity.
Qed.

(** ** The public route: failures and responses *)

(** A mock answered as an array of three items. *)
Definition items_list : DbMockEndpoint :=
  {| id := js "mock-4"; user_id := js "user-1"; path_template := js "/list";
     http_method := js "GET";
     response_structure := JObject [(js "n", JString (js "{{faker.number.int}}"))];
     is_array := true; array_count := 3; status_code := 200;
     projects := None |}.

(** The route [/items/:id] of a project with the base path [/shop/]. *)
Definition shop_items : DbMockEndpoint :=
  {| id := js "mock-6"; user_id := js "user-1"; path_template := js "/items/:id";
     http_method := js "GET";
     response_structure := JObject [(js "n", JNumber 5)];
     is_array := false; array_count := 1; status_code := 200;
     projects := Some (Some (js "/shop/")) |}.

Section RouteMore.

Variable profiles_single : jsstring -> Exc (QueryResult jsstring).
Variable mock_endpoints_select :
  jsstring -> jsstring -> Exc (QueryResult (list DbMockEndpoint)).
Variable toUpperCase : jsstring -> jsstring.
Variable pathMatch : jsstring -> jsstring -> MatchResult.
Variable World : Type.
Variable faker : FakerNode World.
Variable JSON_parse : jsstring -> option JsonValue.
Variable stringify_error : JsonValue -> option jsstring.
Variable init_error_message : InitError -> Z -> jsstring.

Local Abbreviation findMatchingMock :=
  (findMatchingMock profiles_single mock_endpoints_select toUpperCase pathMatch).
Local Abbreviation handleRequest :=
  (handleRequest profiles_single mock_endpoints_select toUpperCase pathMatch
     faker JSON_parse stringify_error init_error_message).

Lemma find_loop_raise (before after : list DbMockEndpoint) (bad : DbMockEndpoint)
    (slug : list jsstring) (e : jsstring) :
  Forall (fun c => pathMatch (fullPathTemplate c) (normalizedReqPath slug) = NoMatch)
    before ->
  pathMatch (fullPathTemplate bad) (normalizedReqPath slug) = MatchThrows e ->
  find_loop pathMatch (before ++ bad :: after) slug = Raise e.
Proof.
  intros Hb He. induction Hb as [|c before Hc _ IH]; cbn [app find_loop].
  - now rewrite He.
  - now rewrite Hc.
Qed.

(** X14: a stored pattern that the matcher rejects, reached before any
    candidate has matched, fails the whole request: the lookup throws the
    matcher's error, a candidate stored after it that would match is never
    tried, and the response has status 500. *)
Theorem rejected_pattern_fails_the_request
    (apiRoutePrefix method userId e : jsstring) (origin : option jsstring)
    (slug : list jsstring) (before after : list DbMockEndpoint)
    (bad : DbMockEndpoint) (w : World) :
  profiles_single apiRoutePrefix = Ok {| data := Some userId; error := None |} ->
  mock_endpoints_select userId (toUpperCase method)
    = Ok {| data := Some (before ++ bad :: after); error := None |} ->
  Forall (fun c => pathMatch (fullPathTemplate c) (normalizedReqPath slug) = NoMatch)
    before ->
  pathMatch (fullPathTemplate bad) (normalizedReqPath slug) = MatchThrows e ->
  findMatchingMock apiRoutePrefix method slug = Raise e /\
  status (fst (handleRequest method origin apiRoutePrefix (Some slug) w)) = 500%Z /\
  snd (handleRequest method origin apiRoutePrefix (Some slug) w) = w.
Proof.
  intros Hp Hm Hb He.
  assert (E : findMatchingMock apiRoutePrefix method slug = Raise e).
  { unfold findMatchingMock. rewrite Hp, Hm. now apply find_loop_raise. }
  split; [exact E|]. unfold handleRequest. now rewrite E.
Qed.

(** X15: every response of the public route, the 404 and the 500 as much
    as the answer of a mock, carries the four cross-origin headers; the
    allowed origin is the origin of the request, or the star when the
    request has none or an empty one. *)
Theorem every_response_carries_cors_headers
    (method apiRoutePrefix : jsstring) (origin : option jsstring)
    (slug : option (list jsstring)) (w : World) :
  assoc (js "Access-Control-Allow-Origin")
    (headers (fst (handleRequest method origin apiRoutePrefix slug w)))
  = Some (match origin with Some (c :: o) => c :: o | _ => js "*" end) /\
  assoc (js "Access-Control-Allow-Methods")
    (headers (fst (handleRequest method origin apiRoutePrefix slug w)))
  = Some (js "GET, POST, PUT, DELETE, OPTIONS") /\
  assoc (js "Access-Control-Allow-Headers")
    (headers (fst (handleRequest method origin apiRoutePrefix slug w)))
  = Some (js "Content-Type, Authorization, X-Requested-With, Apikey, X-CSRF-Token, X-Custom-Header") /\
  assoc (js "Access-Control-Max-Age")
    (headers (fst (handleRequest method origin apiRoutePrefix slug w)))
  = Some (js "86400").
Proof.
  unfold handleRequest. cbv zeta.
  destruct (findMatchingMock apiRoutePrefix method
              match slug with Some s => s | None => [] end) as [[mock|]|e];
    [destruct (generateMockData faker JSON_parse (response_structure mock)
                 (is_array mock) (array_count mock) w) as [generated w'];
     destruct (stringify_error generated);
       [|destruct (response_init_error (status_code mock))] | |];
    cbn [fst headers]; repeat split; reflexivity.
Qed.

(** X16: when a mock stored as an array matches, the generated data is an
    array of [max(1, array_count)] items; when the data is serialised and
    the stored status is one the response can be built with, the response
    has that status, the JSON content type and the array as body;
    otherwise the response has status 500. *)
Theorem matched_array_mock_response
    (method apiRoutePrefix : jsstring) (origin : option jsstring)
    (slug : list jsstring) (mock : DbMockEndpoint) (w : World) :
  findMatchingMock apiRoutePrefix method slug = Ok (Some mock) ->
  is_array mock = true ->
  exists results w',
    generateMockData faker JSON_parse (response_structure mock) true
      (array_count mock) w = (JArray results, w') /\
    Z.of_nat (length results) = Z.max 1 (array_count mock) /\
    (stringify_error (JArray results) = None ->
     response_init_error (status_code mock) = None ->
     handleRequest method origin apiRoutePrefix (Some slug) w
     = ({| body := JArray results;
           status := status_code mock;
           headers := headers_set (getCorsHeaders origin) (js "Content-Type")
                        (js "application/json") |}, w')) /\
    (stringify_error (JArray results) <> None \/
     response_init_error (status_code mock) <> None ->
     status (fst (handleRequest method origin apiRoutePrefix (Some slug) w))
     = 500%Z /\
     snd (handleRequest method origin apiRoutePrefix (Some slug) w) = w').
Proof.
  intros Hm Ha. unfold handleRequest. cbv zeta. rewrite Hm, Ha.
  unfold generateMockData.
  destruct (@generate_items_spec World faker JSON_parse
              (Z.to_nat (Z.max 1 (array_count mock))) (response_structure mock) w)
    as (Hlen & _ & _).
  destruct (generate_items faker JSON_parse (Z.to_nat (Z.max 1 (array_count mock)))
              (response_structure mock) w) as [results w'].
  cbn [fst] in Hlen. exists results, w'.
  split; [reflexivity|]. split; [lia|]. split.
  - intros Hs Hi. now rewrite Hs, Hi.
  - intros H. destruct (stringify_error (JArray results)) as [message|];
      [split; reflexivity|].
    destruct (response_init_error (status_code mock)) as [e|];
      [split; reflexivity|].
    destruct H as [H | H]; now contradiction H.
Qed.

End RouteMore.

(** X23: the base path of the project of a mock is part of its route.  The
    canonical pattern of a mock is composed with the base path when the
    mock has a project whose base path is not empty, and is the normalized
    pattern of the mock alone otherwise; the route [/items/:id] of a
    project with the base path [/shop/] answers [/shop/items/7] and does
    not answer [/items/7]. *)
Theorem project_base_path_is_part_of_the_route (mock : DbMockEndpoint) :
  (forall c base, projects mock = Some (Some (c :: base)) ->
     fullPathTemplate mock = compose (Some (c :: base)) (path_template mock)) /\
  (projects mock = None \/ projects mock = Some None
   \/ projects mock = Some (Some []) ->
     fullPathTemplate mock = compose None (path_template mock)) /\
  fullPathTemplate shop_items = js "/shop/items/:id" /\
  findMatchingMock acme_profiles (rows_for [shop_items]) upper_ascii
    structural_match (js "acme") (js "GET") [js "shop"; js "items"; js "7"]
  = Ok (Some shop_items) /\
  findMatchingMock acme_profiles (rows_for [shop_items]) upper_ascii
    structural_match (js "acme") (js "GET") [js "items"; js "7"]
  = Ok None.
Proof.
  split; [|split].
  - intros c base H. unfold fullPathTemplate, projectBasePath. now rewrite H.
  - intros [H | [H | H]]; unfold fullPathTemplate, projectBasePath; now rewrite H.
  - repeat split; reflexivity.
Qed.

(** ** The routes that create and delete a mock *)

Definition HYPHEN : N := 45.

(** the class [[0-9a-fA-F]] *)
Definition is_hex_digit (c : N) : bool :=
  (((48 <=? c) && (c <=? 57)) || ((97 <=? c) && (c <=? 102))
   || ((65 <=? c) && (c <=? 70)))%N.

(** [r{n+1}]: [n + 1] words of [r] in a row. *)
Fixpoint Times (n : nat) (r : regex) : regex :=
  match n with
  | O => r
  | S k => Cat r (Times k r)
  end.

(** The regular expression of the id check: hexadecimal groups of 8, 4, 4,
    4 and 12 digits with hyphens in between, anchored at both ends. *)
Definition uuid_re : regex :=
  Cat (Times 7 (Class is_hex_digit)) (Cat (Chr HYPHEN)
  (Cat (Times 3 (Class is_hex_digit)) (Cat (Chr HYPHEN)
  (Cat (Times 3 (Class is_hex_digit)) (Cat (Chr HYPHEN)
  (Cat (Times 3 (Class is_hex_digit)) (Cat (Chr HYPHEN)
  (Times 11 (Class is_hex_digit))))))))).

(** What is left of [s] after [n] hexadecimal digits. *)
Fixpoint hex_run (n : nat) (s : jsstring) : option jsstring :=
  match n with
  | O => Some s
  | S k =>
      match s with
      | c :: r => if is_hex_digit c then hex_run k r else None
      | [] => None
      end
  end.

(** What is left of [s] after [n] hexadecimal digits and a hyphen. *)
Definition hex_group (n : nat) (s : jsstring) : option jsstring :=
  match hex_run n s with
  | Some (c :: r) => if N.eqb c HYPHEN then Some r else None
  | _ => None
  end.

(** [re.test(mockId)] for the regular expression of the id check. *)
Definition uuid_test (mockId : jsstring) : bool :=
  match hex_group 8 mockId with
  | Some r1 =>
      match hex_group 4 r1 with
      | Some r2 =>
          match hex_group 4 r2 with
          | Some r3 =>
              match hex_group 4 r3 with
              | Some r4 =>
                  match hex_run 12 r4 with
                  | Some [] => true
                  | _ => false
                  end
              | None => false
              end
          | None => false
          end
      | None => false
      end
  | None => false
  end.

(** The [error] of a store reply: its code and its message. *)
Record StoreError : Type := {
  code : jsstring;
  message : jsstring
}.

(** The reply of the store to a delete that asks for the exact count. *)
Record DeleteReply : Type := {
  deleteError : option StoreError;
  count : option N
}.

Definition error_body (text : jsstring) : JsonValue :=
  JObject [(js "error", JString text)].

Definition error_details_body (text details : jsstring) : JsonValue :=
  JObject [(js "error", JString text); (js "details", JString details)].

(** The [DELETE] handler of a mock: the id of the signed-in user if there
    is one, the id in the route, and the store's delete of the rows with
    that id and that owner.  The result is the status and the body given
    to [NextResponse.json]. *)
Definition DELETE_mock (user : option jsstring) (mockId : jsstring)
    (delete_rows : jsstring -> jsstring -> Exc DeleteReply) : Z * JsonValue :=
  match user with
  | None => (401%Z, error_body (js "Unauthorized"))
  | Some userId =>
      match mockId with
      | [] => (400%Z, error_body (js "Mock ID is required"))
      | _ :: _ =>
          if negb (uuid_test mockId) then
            (400%Z, error_body (js "Invalid Mock ID format"))
          else
            match delete_rows mockId userId with
            | Raise e =>
                (500%Z, error_details_body (js "Failed to process request") e)
            | Ok {| deleteError := Some err |} => (500%Z, error_body (message err))
            | Ok {| deleteError := None; count := Some 0%N |} =>
                (404%Z, error_body
                   (js "Mock not found or you do not have permission to delete it."))
            | Ok _ =>
                (200%Z, JObject [(js "message",
                                  JString (js "Mock deleted successfully"))])
            end
      end
  end.

(** The fields of a mock as the schema of the create route yields them. *)
Record MockInput : Type := {
  in_name : jsstring;
  in_path_template : jsstring;
  in_http_method : jsstring;
  in_response_structure : JsonValue;
  in_is_array : bool;
  in_array_count : Z;
  in_status_code : Z
}.

(** What reading the body as JSON and parsing it with the schema comes to:
    the parsed fields, a schema error with its list of issues, or any
    other error thrown on the way (a body that is not JSON). *)
Inductive ParseOutcome : Type :=
| Parsed (parsedData : MockInput)
| ZodError (errors : JsonValue)
| OtherError.

Definition with_path (d : MockInput) (p : jsstring) : MockInput :=
  {| in_name := in_name d; in_path_template := p;
     in_http_method := in_http_method d;
     in_response_structure := in_response_structure d;
     in_is_array := in_is_array d; in_array_count := in_array_count d;
     in_status_code := in_status_code d |}.

(** The reply of the store to an insert that selects the new row. *)
Record InsertReply : Type := {
  newMock : JsonValue;
  insertError : option StoreError
}.

(** The [POST] handler that creates a mock: the id of the signed-in user
    if there is one, the outcome of parsing the body, and the store's
    insert of the parsed fields for that user. *)
Definition POST_mock (user : option jsstring) (parsed : ParseOutcome)
    (insert : MockInput -> jsstring -> Exc InsertReply) : Z * JsonValue :=
  match user with
  | None => (401%Z, error_body (js "Unauthorized"))
  | Some userId =>
      match parsed with
      | ZodError errors =>
          (400%Z, JObject [(js "error", JString (js "Invalid input"));
                           (js "details", errors)])
      | OtherError => (500%Z, error_body (js "Failed to process request"))
      | Parsed parsedData =>
          let row :=
            with_path parsedData
              (normalizePathTemplate (in_path_template parsedData)) in
          match insert row userId with
          | Raise _ => (500%Z, error_body (js "Failed to process request"))
          | Ok {| newMock := created; insertError := None |} => (201%Z, created)
          | Ok {| insertError := Some err |} =>
              if str_eqb (code err) (js "23505") then
                (409%Z, error_body
                   (js "A mock with this path and method might already exist or another unique constraint failed."))
              else (500%Z, error_body (message err))
          end
      end
  end.

(** ** The session middleware and the status colour of the tester *)

(** What the middleware does with a request: it lets it through with the
    response of the session update, or redirects it. *)
Inductive MiddlewareResult : Type :=
| Continue
| Redirect (pathname : jsstring).

(** [middleware]: the signed-in user if there is one, and the path of the
    request. *)
Definition middleware (user : option jsstring) (pathname : jsstring)
    : MiddlewareResult :=
  if str_eqb pathname (js "/login") || str_eqb pathname (js "/signup") then
    match user with
    | Some _ => Redirect (js "/dashboard")
    | None => Continue
    end
  else if startsWith (js "/dashboard") pathname
          || startsWith (js "/mocks/new") pathname then
    match user with
    | None => Redirect (js "/login")
    | Some _ => Continue
    end
  else Continue.

(** [getStatusColorClass] of the tester: the status of the last response,
    [None] before any (a number that is zero is falsy, as [null] is). *)
Definition getStatusColorClass (statusCode : option Z) : jsstring :=
  match statusCode with
  | None => js "text-base-content opacity-70"
  | Some n =>
      if Z.eqb n 0 then js "text-base-content opacity-70"
      else if Z.eqb n 0 then js "text-error"
      else if Z.leb 200 n && Z.ltb n 300 then js "text-success"
      else if Z.leb 300 n && Z.ltb n 400 then js "text-info"
      else if Z.leb 400 n && Z.ltb n 500 then js "text-warning"
      else if Z.leb 500 n then js "text-error"
      else js "text-base-content opacity-70"
  end.

Lemma matches_Times_Class (n : nat) (p : N -> bool) (s : jsstring) :
  matches (Times n (Class p)) s <-> length s = S n /\ forallb p s = true.
Proof.
  revert s. induction n as [|n IH]; intros s; cbn [Times].
  - rewrite matches_Class. split.
    + intros (c & -> & Hc). cbn. now rewrite Hc.
    + intros [Hl Hp]. destruct s as [|c [|d s]]; try discriminate.
      cbn in Hp. rewrite andb_true_r in Hp. now exists c.
  - rewrite matches_Cat. split.
    + intros (s1 & s2 & -> & H1 & H2).
      apply matches_Class in H1 as (c & -> & Hc). apply IH in H2 as [Hl Hp].
      cbn. now rewrite Hc, Hl, Hp.
    + intros [Hl Hp]. destruct s as [|c s]; [discriminate|].
      cbn in Hl, Hp. apply andb_true_iff in Hp as [Hc Hp].
      exists [c], s. split; [reflexivity|]. split.
      * now constructor.
      * apply IH. split; [lia | exact Hp].
Qed.

Lemma hex_run_spec (n : nat) (s r : jsstring) :
  hex_run n s = Some r <->
  exists h, s = h ++ r /\ length h = n /\ forallb is_hex_digit h = true.
Proof.
  revert s. induction n as [|n IH]; intros s; cbn [hex_run].
  - split.
    + intros H; inversion H; subst. now exists [].
    + intros (h & -> & Hl & _). destruct h; [reflexivity | discriminate].
  - destruct s as [|c s].
    + split; [discriminate|]. intros (h & Hs & Hl & _).
      destruct h; discriminate.
    + destruct (is_hex_digit c) eqn:Hc.
      * rewrite IH. split.
        -- intros (h & -> & Hl & Hp). exists (c :: h). cbn. now rewrite Hc, Hl, Hp.
        -- intros (h & Hs & Hl & Hp). destruct h as [|d h]; [discriminate|].
           cbn in Hs, Hl, Hp. inversion Hs; subst.
           apply andb_true_iff in Hp as [_ Hp]. exists h. auto.
      * split; [discriminate|]. intros (h & Hs & Hl & Hp).
        destruct h as [|d h]; [discriminate|]. cbn in Hs, Hp. inversion Hs; subst.
        rewrite Hc in Hp. discriminate.
Qed.

Lemma hex_group_spec (n : nat) (s r : jsstring) :
  hex_group n s = Some r <->
  exists h, s = h ++ HYPHEN :: r /\ length h = n /\ forallb is_hex_digit h = true.
Proof.
  unfold hex_group. split.
  - destruct (hex_run n s) as [[|c t]|] eqn:E; try discriminate.
    destruct (N.eqb c HYPHEN) eqn:Ec; [|discriminate].
    intros H; inversion H; subst. apply N.eqb_eq in Ec. subst c.
    apply hex_run_spec in E as (h & -> & Hl & Hp). now exists h.
  - intros (h & -> & Hl & Hp).
    assert (E : hex_run n (h ++ HYPHEN :: r) = Some (HYPHEN :: r))
      by (apply hex_run_spec; now exists h).
    now rewrite E, N.eqb_refl.
Qed.

Lemma matches_hex_group (n : nat) (R : regex) (s : jsstring) :
  matches (Cat (Times n (Class is_hex_digit)) (Cat (Chr HYPHEN) R)) s <->
  exists r, hex_group (S n) s = Some r /\ matches R r.
Proof.
  rewrite matches_Cat. split.
  - intros (s1 & s2 & -> & H1 & H2).
    apply matches_Times_Class in H1 as [Hl Hp].
    apply matches_Cat in H2 as (d & r & -> & Hd & Hr).
    apply matches_Chr in Hd. subst d.
    exists r. split; [|exact Hr]. apply hex_group_spec. now exists s1.
  - intros (r & Hg & Hr). apply hex_group_spec in Hg as (h & -> & Hl & Hp).
    exists h, (HYPHEN :: r). split; [reflexivity|]. split.
    + now apply matches_Times_Class.
    + change (HYPHEN :: r) with ([HYPHEN] ++ r). apply MCat; [constructor | exact Hr].
Qed.

Lemma matches_hex_end (n : nat) (s : jsstring) :
  matches (Times n (Class is_hex_digit)) s <-> hex_run (S n) s = Some [].
Proof.
  rewrite matches_Times_Class, hex_run_spec. split.
  - intros [Hl Hp]. exists s. now rewrite app_nil_r.
  - intros (h & -> & Hl & Hp). now rewrite app_nil_r.
Qed.

Lemma hex_group_length (n : nat) (s r : jsstring) :
  hex_group n s = Some r -> length s = (n + 1 + length r)%nat.
Proof.
  intros H. apply hex_group_spec in H as (h & -> & Hl & _).
  rewrite length_app. cbn [length]. lia.
Qed.

(** X17: the id check of the update and delete routes accepts exactly the
    words of its regular expression; an accepted id has 36 code units,
    with a hyphen after the first eight. *)
Theorem uuid_test_accepts_the_uuid_shape (mockId : jsstring) :
  (uuid_test mockId = true <-> matches uuid_re mockId) /\
  (uuid_test mockId = true ->
   length mockId = 36%nat /\ nth_error mockId 8 = Some HYPHEN).
Proof.
  split; [split|].
  - unfold uuid_test, uuid_re.
    destruct (hex_group 8 mockId) as [r1|] eqn:E1; [|discriminate].
    destruct (hex_group 4 r1) as [r2|] eqn:E2; [|discriminate].
    destruct (hex_group 4 r2) as [r3|] eqn:E3; [|discriminate].
    destruct (hex_group 4 r3) as [r4|] eqn:E4; [|discriminate].
    destruct (hex_run 12 r4) as [[|c t]|] eqn:E5; try discriminate.
    intros _.
    apply matches_hex_group. exists r1. split; [exact E1|].
    apply matches_hex_group. exists r2. split; [exact E2|].
    apply matches_hex_group. exists r3. split; [exact E3|].
    apply matches_hex_group. exists r4. split; [exact E4|].
    now apply matches_hex_end.
  - unfold uuid_re. intros H.
    apply matches_hex_group in H as (r1 & E1 & H).
    apply matches_hex_group in H as (r2 & E2 & H).
    apply matches_hex_group in H as (r3 & E3 & H).
    apply matches_hex_group in H as (r4 & E4 & H).
    apply matches_hex_end in H.
    unfold uuid_test. now rewrite E1, E2, E3, E4, H.
  - unfold uuid_test.
    destruct (hex_group 8 mockId) as [r1|] eqn:E1; [|discriminate].
    destruct (hex_group 4 r1) as [r2|] eqn:E2; [|discriminate].
    destruct (hex_group 4 r2) as [r3|] eqn:E3; [|discriminate].
    destruct (hex_group 4 r3) as [r4|] eqn:E4; [|discriminate].
    destruct (hex_run 12 r4) as [[|c t]|] eqn:E5; try discriminate.
    intros _. split.
    + apply hex_group_length in E1, E2, E3, E4.
      apply hex_run_spec in E5 as (h & -> & Hl & _).
      rewrite app_nil_r in E4. lia.
    + apply hex_group_spec in E1 as (h & -> & Hl & _).
      rewrite nth_error_app2 by lia. now rewrite Hl, Nat.sub_diag.
Qed.

(** X18: the delete route answers 200 exactly when a user is signed in,
    the id passes the id check, and the store, asked to delete the rows
    with that id owned by that user, neither throws nor reports an error
    nor counts zero rows; without a user or with an id that does not pass
    the check the store has no part in the answer. *)
Theorem delete_succeeds_only_for_owner_and_uuid (user : option jsstring)
    (mockId : jsstring) (delete_rows : jsstring -> jsstring -> Exc DeleteReply) :
  (fst (DELETE_mock user mockId delete_rows) = 200%Z <->
   exists userId n,
     user = Some userId /\ uuid_test mockId = true /\
     delete_rows mockId userId = Ok {| deleteError := None; count := n |} /\
     n <> Some 0%N) /\
  (user = None \/ uuid_test mockId = false ->
   forall other, DELETE_mock user mockId other = DELETE_mock user mockId delete_rows).
Proof.
  split; [split|].
  - unfold DELETE_mock. destruct user as [userId|]; [|discriminate].
    destruct mockId as [|c m]; [discriminate|].
    destruct (uuid_test (c :: m)) eqn:Hu; cbn [negb]; [|discriminate].
    destruct (delete_rows (c :: m) userId) as [[[err|] [[|n]|]]|e] eqn:Hd;
      try discriminate; intros _; exists userId; eexists;
      (split; [reflexivity|]; split; [reflexivity|]; split; [exact Hd|]);
      discriminate.
  - intros (userId & n & -> & Hu & Hd & Hn). unfold DELETE_mock.
    destruct mockId as [|c m]; [discriminate|].
    rewrite Hu, Hd. cbn [negb]. destruct n as [[|n]|]; [contradiction | |]; reflexivity.
  - intros [-> | Hu] other; [reflexivity|]. unfold DELETE_mock.
    destruct user as [userId|]; [|reflexivity].
    destruct mockId as [|c m]; [reflexivity|]. now rewrite Hu.
Qed.

(** X19: the create route answers 201 exactly when a user is signed in,
    the body parses under the schema, and the store, given the parsed
    fields with the path normalized and the id of that user, neither
    throws nor reports an error; the body of the answer is then the row
    the store returns.  A body that is not JSON is answered with 500. *)
Theorem create_succeeds_only_when_stored (user : option jsstring)
    (parsed : ParseOutcome) (insert : MockInput -> jsstring -> Exc InsertReply) :
  (forall created,
     POST_mock user parsed insert = (201%Z, created) <->
     exists userId parsedData,
       user = Some userId /\ parsed = Parsed parsedData /\
       insert (with_path parsedData
                 (normalizePathTemplate (in_path_template parsedData))) userId
       = Ok {| newMock := created; insertError := None |}) /\
  (fst (POST_mock user parsed insert) = 201%Z ->
   exists created, POST_mock user parsed insert = (201%Z, created)) /\
  (user <> None -> parsed = OtherError ->
   fst (POST_mock user parsed insert) = 500%Z).
Proof.
  split; [|split].
  - intros created. split.
    + unfold POST_mock. destruct user as [userId|]; [|discriminate].
      destruct parsed as [d|errors|]; try discriminate. cbv zeta.
      destruct (insert _ userId) as [[row [err|]]|e] eqn:Hi; try discriminate.
      * destruct (str_eqb (code err) (js "23505")); discriminate.
      * intros H; inversion H; subst. exists userId, d. auto.
    + intros (userId & d & -> & -> & Hi). unfold POST_mock. cbv zeta. now rewrite Hi.
  - unfold POST_mock. destruct user as [userId|]; [|discriminate].
    destruct parsed as [d|errors|]; try discriminate. cbv zeta.
    destruct (insert _ userId) as [[row [err|]]|e]; try discriminate.
    + destruct (str_eqb (code err) (js "23505")); discriminate.
    + intros _. now exists row.
  - intros Hu ->. destruct user; [reflexivity | contradiction].
Qed.

(** X20: a redirect of the middleware is never followed by a second one:
    the path a request is sent to is let through for the same user; only a
    request without a user is sent to the login page, and only a request
    with one to the dashboard. *)
Theorem middleware_redirects_at_most_once (user : option jsstring)
    (pathname target : jsstring) :
  middleware user pathname = Redirect target ->
  middleware user target = Continue /\
  ((user = None /\ target = js "/login")
   \/ (user <> None /\ target = js "/dashboard")).
Proof.
  unfold middleware at 1.
  destruct (str_eqb pathname (js "/login") || str_eqb pathname (js "/signup")).
  - destruct user as [u|]; [|discriminate]. intros H; inversion H; subst.
    split; [reflexivity|]. right. split; [discriminate | reflexivity].
  - destruct (startsWith (js "/dashboard") pathname
              || startsWith (js "/mocks/new") pathname); [|discriminate].
    destruct user as [u|]; [discriminate|]. intros H; inversion H; subst.
    split; [reflexivity|]. left. split; reflexivity.
Qed.

(** X21: the tester shows a status in the error colour exactly when the
    status is 500 or more; the status 0 it records for a request that did
    not get through is shown in the neutral colour, the test for zero
    coming after the test for a missing status, which zero passes. *)
Theorem status_colour_is_error_from_500 (statusCode : option Z) :
  (getStatusColorClass statusCode = js "text-error" <->
   exists n, statusCode = Some n /\ (500 <= n)%Z) /\
  getStatusColorClass (Some 0%Z) = getStatusColorClass None.
Proof.
  split; [|reflexivity]. unfold getStatusColorClass.
  destruct statusCode as [n|].
  - destruct (Z.eqb n 0) eqn:E0.
    { apply Z.eqb_eq in E0. subst n. split; [discriminate|].
      intros (n & H & Hn). inversion H; subst. lia. }
    destruct (Z.leb 200 n && Z.ltb n 300) eqn:E2.
    { apply andb_true_iff in E2 as [_ E2]. apply Z.ltb_lt in E2.
      split; [discriminate|]. intros (m & H & Hm). inversion H; subst. lia. }
    destruct (Z.leb 300 n && Z.ltb n 400) eqn:E3.
    { apply andb_true_iff in E3 as [_ E3]. apply Z.ltb_lt in E3.
      split; [discriminate|]. intros (m & H & Hm). inversion H; subst. lia. }
    destruct (Z.leb 400 n && Z.ltb n 500) eqn:E4.
    { apply andb_true_iff in E4 as [_ E4]. apply Z.ltb_lt in E4.
      split; [discriminate|]. intros (m & H & Hm). inversion H; subst. lia. }
    destruct (Z.leb 500 n) eqn:E5.
    + apply Z.leb_le in E5. split; [intros _; now exists n | reflexivity].
    + apply Z.leb_gt in E5. split; [discriminate|].
      intros (m & H & Hm). inversion H; subst. lia.
  - split; [discriminate|]. intros (n & H & _). discriminate.
Qed.

(** ** The further statements on the small instance *)

(** A plain template: no generator call, no key [__proto__]. *)
Definition plain_template : JsonValue :=
  JObject [(js "n", JNumber 5); (js "tags", JArray [JString (js "a"); JNull])].

Lemma object_expansion_keeps_keys_witness :
  distinct (keys [(js "b", JNumber 1); (PROTO, JNumber 2); (js "a", JNull)]) = true /\
  exists newObj w',
    processValue small_faker small_parse
      (JObject [(js "b", JNumber 1); (PROTO, JNumber 2); (js "a", JNull)]) 0%nat
    = (JObject newObj, w') /\
    keys newObj = [js "b"; js "a"].
Proof.
  split; [reflexivity|].
  destruct (object_expansion_keeps_keys small_faker small_parse
              [(js "b", JNumber 1); (PROTO, JNumber 2); (js "a", JNull)] 0%nat)
    as (newObj & w' & H & _ & Hk).
  exists newObj, w'. split; [exact H | exact (Hk eq_refl)].
Defined.

Lemma no_template_no_generator_call_witness :
  has_template plain_template = false /\
  snd (processValue small_faker small_parse plain_template 7%nat) = 7%nat.
Proof.
  split; [reflexivity|].
  exact (@no_template_no_generator_call nat small_faker small_parse
           plain_template 7%nat eq_refl).
Defined.

Lemma processValue_fixed_witness :
  has_template plain_template = false /\ ordinary_keys plain_template = true /\
  processValue small_faker small_parse plain_template 7%nat = (plain_template, 7%nat).
Proof.
  split; [reflexivity|]. split; [reflexivity|].
  exact (@processValue_fixed nat small_faker small_parse plain_template
           eq_refl eq_refl 7%nat).
Defined.

Lemma array_mode_of_plain_template_witness :
  has_template plain_template = false /\ ordinary_keys plain_template = true /\
  generateMockData small_faker small_parse plain_template true 3 7%nat
  = (JArray [plain_template; plain_template; plain_template], 7%nat).
Proof.
  split; [reflexivity|]. split; [reflexivity|].
  exact (@array_mode_of_plain_template nat small_faker small_parse plain_template
           3 7%nat eq_refl eq_refl).
Defined.

Lemma array_mode_count_at_most_one_witness :
  (-2 <= 1)%Z /\
  generateMockData small_faker small_parse
    (JString (js "{{faker.number.int}}")) true (-2) 7%nat
  = (JArray [JNumber 7], 8%nat).
Proof.
  split; [lia|].
  refine (@array_mode_count_at_most_one nat small_faker small_parse
            (JString (js "{{faker.number.int}}")) (-2) 7%nat _).
  lia.
Defined.

Lemma multiline_arguments_pass_through_witness :
  forallb is_path_char (js "faker.number.int") = true /\
  existsb is_line_terminator [123; 10; 125]%N = true /\
  snd (processValue small_faker small_parse
         (JString (js "{{faker.number.int(" ++ [123; 10; 125]%N ++ js ")}}")) 7%nat)
  = 7%nat.
Proof.
  split; [reflexivity|]. split; [reflexivity|].
  exact (f_equal snd
           (@multiline_arguments_pass_through nat small_faker small_parse
              (js "faker.number.int") [123; 10; 125]%N 7%nat eq_refl eq_refl)).
Defined.

Lemma template_with_arguments_calls_generator_witness :
  trim (js "1") <> [] /\
  small_parse (js "1") = Some (JNumber 1) /\
  getFakerFunction small_faker (js "faker.number.int") = Some counting /\
  processValue small_faker small_parse (JString (js "{{faker.number.int(1)}}")) 5%nat
  = (JNumber 5, 6%nat).
Proof.
  assert (Ht : trim (js "1") <> []) by discriminate.
  assert (Hn : js "faker.number.int" <> []) by discriminate.
  split; [exact Ht|]. split; [reflexivity|]. split; [reflexivity|].
  exact (@template_with_arguments_calls_generator nat small_faker small_parse
           (js "faker.number.int") (js "1") (JNumber 1) (JNumber 5) counting
           5%nat 6%nat Hn eq_refl eq_refl Ht eq_refl eq_refl eq_refl).
Defined.

Lemma path_through_a_leaf_is_unknown_witness :
  descend small_faker [js "number"; js "int"] = Some (FFunction counting) /\
  getFakerFunction small_faker (js "faker.number.int.call") = None.
Proof.
  split; [reflexivity|].
  exact (@path_through_a_leaf_is_unknown nat small_faker
           (js "faker.number.int.call") [js "number"; js "int"] [] (js "call")
           (FFunction counting) eq_refl eq_refl eq_refl).
Defined.

Lemma dotted_path_resolves_by_descent_witness :
  Forall (fun p => has_char DOT p = false) [js "number"; js "int"] /\
  getFakerFunction small_faker (js "faker.number.int") = Some counting.
Proof.
  assert (H : Forall (fun p => has_char DOT p = false) [js "number"; js "int"])
    by (repeat constructor).
  split; [exact H|].
  exact (@dotted_path_resolves_by_descent nat small_faker
           [js "number"; js "int"] H).
Defined.

Lemma stored_path_is_stable_witness :
  endsWith [SLASH; SLASH] (js "items/") = false /\
  normalizePathTemplate (js "items/") = js "/items" /\
  compose None (normalizePathTemplate (js "items/"))
  = normalizePathTemplate (js "items/").
Proof.
  split; [reflexivity|]. split; [reflexivity|].
  exact (proj2 (proj2 (proj2 (stored_path_is_stable (js "items/") eq_refl)))).
Defined.

Lemma request_path_keeps_segments_witness :
  Forall (fun p => p <> [] /\ has_char SLASH p = false) [js "items"; js "7"] /\
  split SLASH (normalizedReqPath [js "items"; js "7"]) = [[]; js "items"; js "7"].
Proof.
  assert (H : Forall (fun p => p <> [] /\ has_char SLASH p = false)
                [js "items"; js "7"])
    by (repeat constructor; discriminate).
  assert (Hne : [js "items"; js "7"] <> []) by discriminate.
  split; [exact H|].
  exact (proj2 (proj2 request_path_keeps_segments [js "items"; js "7"] Hne H)).
Defined.

Lemma canonical_pattern_starts_with_slash_witness :
  fullPathTemplate items_by_id
  = stripTrailingSlash (ensureLeadingSlash (path_template items_by_id)).
Proof.
  exact (proj2 (canonical_pattern_starts_with_slash items_by_id) (or_introl eq_refl)).
Defined.

Lemma rejected_pattern_fails_the_request_witness :
  structural_match (fullPathTemplate items_by_id)
    (normalizedReqPath [js "items"; js "7"]) = Matched [(js "id", js "7")] /\
  findMatchingMock acme_profiles
    (rows_for [items_active; items_unnamed; items_by_id]) upper_ascii
    rejecting_match (js "acme") (js "GET") [js "items"; js "7"]
  = Raise (js "Missing parameter name at 7").
Proof.
  split; [reflexivity|].
  refine (proj1 (@rejected_pattern_fails_the_request acme_profiles
                   (rows_for [items_active; items_unnamed; items_by_id])
                   upper_ascii rejecting_match nat small_faker small_parse
                   writes_json runtime_message
                   (js "acme") (js "GET") (js "user-1")
                   (js "Missing parameter name at 7") None
                   [js "items"; js "7"] [items_active] [items_by_id]
                   items_unnamed 0%nat eq_refl eq_refl _ eq_refl)).
  repeat constructor.
Defined.

Lemma matched_array_mock_response_witness :
  findMatchingMock acme_profiles (rows_for [items_list]) upper_ascii
    structural_match (js "acme") (js "GET") [js "list"] = Ok (Some items_list) /\
  is_array items_list = true /\
  exists results w',
    generateMockData small_faker small_parse (response_structure items_list)
      true (array_count items_list) 0%nat = (JArray results, w') /\
    Z.of_nat (length results) = 3%Z /\
    handleRequest acme_profiles (rows_for [items_list]) upper_ascii
      structural_match small_faker small_parse writes_json runtime_message
      (js "GET") None (js "acme") (Some [js "list"]) 0%nat
    = ({| body := JArray results; status := 200;
          headers := headers_set (getCorsHeaders None) (js "Content-Type")
                       (js "application/json") |}, w').
Proof.
  split; [reflexivity|]. split; [reflexivity|].
  destruct (@matched_array_mock_response acme_profiles (rows_for [items_list])
              upper_ascii structural_match nat small_faker small_parse
              writes_json runtime_message
              (js "GET") (js "acme") None [js "list"] items_list 0%nat
              eq_refl eq_refl) as (results & w' & Hg & Hlen & Hok & _).
  exists results, w'. split; [exact Hg|]. split; [exact Hlen|].
  apply Hok; reflexivity.
Defined.

Lemma uuid_test_accepts_the_uuid_shape_witness :
  uuid_test (js "123e4567-E89B-12d3-a456-426614174000") = true /\
  length (js "123e4567-E89B-12d3-a456-426614174000") = 36%nat /\
  uuid_test (js "123e4567-e89b-12d3-a456-42661417400") = false.
Proof.
  split; [reflexivity|]. split; [|reflexivity].
  exact (proj1 (proj2 (uuid_test_accepts_the_uuid_shape
                         (js "123e4567-E89B-12d3-a456-426614174000")) eq_refl)).
Defined.

(** A store that deletes the one row of [user-1]. *)
Definition one_row_store (mockId userId : jsstring) : Exc DeleteReply :=
  if str_eqb userId (js "user-1")
  then Ok {| deleteError := None; count := Some 1%N |}
  else Ok {| deleteError := None; count := Some 0%N |}.

Lemma delete_succeeds_only_for_owner_and_uuid_witness :
  fst (DELETE_mock (Some (js "user-1")) (js "123e4567-e89b-12d3-a456-426614174000")
         one_row_store) = 200%Z /\
  fst (DELETE_mock (Some (js "user-2")) (js "123e4567-e89b-12d3-a456-426614174000")
         one_row_store) = 404%Z /\
  DELETE_mock (Some (js "user-1")) (js "not-an-id") (fun _ _ => Raise (js "down"))
  = DELETE_mock (Some (js "user-1")) (js "not-an-id") one_row_store.
Proof.
  split; [|split; [reflexivity|]].
  - apply (proj1 (delete_succeeds_only_for_owner_and_uuid (Some (js "user-1"))
                    (js "123e4567-e89b-12d3-a456-426614174000") one_row_store)).
    exists (js "user-1"), (Some 1%N). repeat split; discriminate.
  - exact (proj2 (delete_succeeds_only_for_owner_and_uuid (Some (js "user-1"))
                    (js "not-an-id") one_row_store) (or_intror eq_refl)
                 (fun _ _ => Raise (js "down"))).
Defined.

(** A store that returns the name of the row it is given. *)
Definition echo_store (row : MockInput) (userId : jsstring) : Exc InsertReply :=
  Ok {| newMock := JObject [(js "path_template", JString (in_path_template row));
                            (js "user_id", JString userId)];
        insertError := None |}.

Definition new_items : MockInput :=
  {| in_name := js "items"; in_path_template := js "/items/";
     in_http_method := js "GET"; in_response_structure := JObject [];
     in_is_array := false; in_array_count := 1; in_status_code := 200 |}.

Lemma create_succeeds_only_when_stored_witness :
  POST_mock (Some (js "user-1")) (Parsed new_items) echo_store
  = (201%Z, JObject [(js "path_template", JString (js "/items"));
                     (js "user_id", JString (js "user-1"))]) /\
  fst (POST_mock (Some (js "user-1")) OtherError echo_store) = 500%Z.
Proof.
  split.
  - apply (proj1 (create_succeeds_only_when_stored (Some (js "user-1"))
                    (Parsed new_items) echo_store)).
    exists (js "user-1"), new_items. repeat split.
  - apply (proj2 (proj2 (create_succeeds_only_when_stored (Some (js "user-1"))
                           OtherError echo_store))); [discriminate | reflexivity].
Defined.

Lemma middleware_redirects_at_most_once_witness :
  middleware None (js "/dashboard/settings") = Redirect (js "/login") /\
  middleware None (js "/login") = Continue.
Proof.
  split; [reflexivity|].
  exact (proj1 (@middleware_redirects_at_most_once None (js "/dashboard/settings")
                  (js "/login") eq_refl)).
Defined.

(** X22 on an array and on an object whose second value names a generator
    that throws: the first and the third value are expanded, the second is
    the marker. *)
Lemma failed_leaf_is_replaced_in_place_witness :
  template_match (js "{{faker.helpers.fail}}")
    = Some (js "faker.helpers.fail", None) /\
  LeafFailure small_faker small_parse (js "faker.helpers.fail") None 1%nat
    (js "Error: Faker (faker.helpers.fail)") 2%nat /\
  processValue small_faker small_parse
    (JArray [JString (js "{{faker.number.int}}");
             JString (js "{{faker.helpers.fail}}");
             JString (js "{{faker.number.int}}")]) 0%nat
  = (JArray [JNumber 0; JString (js "Error: Faker (faker.helpers.fail)");
             JNumber 2], 3%nat) /\
  (exists newObj,
     processValue small_faker small_parse
       (JObject [(js "a", JString (js "{{faker.number.int}}"));
                 (js "b", JString (js "{{faker.helpers.fail}}"));
                 (js "c", JString (js "{{faker.number.int}}"))]) 0%nat
     = (JObject newObj, 3%nat) /\
     assoc (js "b") newObj
     = Some (JString (js "Error: Faker (faker.helpers.fail)"))) /\
  processValue small_faker small_parse
    (JObject [(js "a", JString (js "{{faker.number.int}}"));
              (js "b", JString (js "{{faker.helpers.fail}}"));
              (js "c", JString (js "{{faker.number.int}}"))]) 0%nat
  = (JObject [(js "a", JNumber 0);
              (js "b", JString (js "Error: Faker (faker.helpers.fail)"));
              (js "c", JNumber 2)], 3%nat).
Proof.
  assert (Hm : template_match (js "{{faker.helpers.fail}}")
               = Some (js "faker.helpers.fail", None)) by reflexivity.
  assert (Hf : LeafFailure small_faker small_parse (js "faker.helpers.fail") None
                 1%nat (js "Error: Faker (faker.helpers.fail)") 2%nat).
  { apply (@ThrowsWithoutArgument nat small_faker small_parse
             (js "faker.helpers.fail") None 1%nat failing 2%nat);
      [reflexivity | exact I | reflexivity]. }
  split; [exact Hm|]. split; [exact Hf|]. split; [|split].
  - exact (proj1 (proj2 (proj2
             (@failed_leaf_is_replaced_in_place nat small_faker small_parse
                (js "{{faker.helpers.fail}}") (js "faker.helpers.fail") None
                1%nat 2%nat (js "Error: Faker (faker.helpers.fail)") Hm Hf)))
             [JString (js "{{faker.number.int}}")]
             [JString (js "{{faker.number.int}}")] 0%nat eq_refl).
  - exact (proj1 (proj2 (proj2 (proj2
             (@failed_leaf_is_replaced_in_place nat small_faker small_parse
                (js "{{faker.helpers.fail}}") (js "faker.helpers.fail") None
                1%nat 2%nat (js "Error: Faker (faker.helpers.fail)") Hm Hf))))
             [(js "a", JString (js "{{faker.number.int}}"))] (js "b")
             [(js "c", JString (js "{{faker.number.int}}"))] 0%nat
             eq_refl eq_refl eq_refl).
  - reflexivity.
Defined.
